(** * Spx-options-trading-bot: the two C++ teaching programs

    A shallow embedding of [lesson1_variables.cpp] (the variable-types
    walkthrough) and [exercise1_personal_info.cpp] (the personal-info
    calculator), and the properties their specification states about the
    text they write to standard output.

    Both programs are straight-line code over [std::cout].  The stream is a
    record holding what was written so far together with the formatting
    state the programs touch ([std::fixed], [std::setprecision],
    [std::boolalpha]); every statement [std::cout << a << b;] becomes one
    state-passing step [let cout := cout << a << b in ...].  The overloads
    of [operator<<] are the instances of one type class.  Machine integers
    are [Z] with the two's-complement wrap-around written out, [double],
    [float] and [long double] are IEEE-754 binary formats over
    [SpecFloat.spec_float], strings are byte strings. *)

From Stdlib Require Import ZArith List String Ascii Bool Lia.
From Stdlib Require Import DecimalString.
From Stdlib Require Import Floats.SpecFloat.
Import ListNotations.

Local Open Scope string_scope.
Local Open Scope Z_scope.

(** ** Machine integers *)

Module CInt.

(** The value of [x] read as a [w]-bit two's-complement integer. *)
Definition wrap (w : Z) (x : Z) : Z :=
  (x + 2 ^ (w - 1)) mod 2 ^ w - 2 ^ (w - 1).

Definition int_min : Z := - 2 ^ 31.
Definition int_max : Z := 2 ^ 31 - 1.

Definition in_int (x : Z) : Prop := int_min <= x <= int_max.

(** [int] is 32 bits wide; [a - b] and [a * b] on [int], with the
    wrap-around of two's-complement hardware where the exact result does not
    fit. *)
Definition int_sub (a b : Z) : Z := wrap 32 (a - b).
Definition int_mul (a b : Z) : Z := wrap 32 (a * b).

End CInt.

(** ** Byte strings *)

Module Str.

(** [std::string::length]: the number of bytes. *)
Definition length (s : string) : Z := Z.of_nat (String.length s).

(** [operator+] on [std::string]. *)
Definition plus (a b : string) : string := a ++ b.

Definition newline : string := String "010"%char EmptyString.
Definition dquote : string := String "034"%char EmptyString.

(** The strings of a list one after the other. *)
Definition flatten (ls : list string) : string :=
  fold_right String.append EmptyString ls.

(** The text made of the given lines, each ended by a newline. *)
Definition unlines (ls : list string) : string :=
  flatten (map (fun l => l ++ newline) ls).

(** The lines of a text: the segments ended by a newline, and the
    unterminated rest when it is not empty. *)
Fixpoint lines_from (cur : string) (s : string) : list string :=
  match s with
  | EmptyString =>
      match cur with EmptyString => [] | _ => [cur] end
  | String c s' =>
      if Ascii.eqb c "010"%char
      then cur :: lines_from EmptyString s'
      else lines_from (cur ++ String c EmptyString) s'
  end.

Definition lines (s : string) : list string := lines_from EmptyString s.

Fixpoint prefixb (p s : string) : bool :=
  match p, s with
  | EmptyString, _ => true
  | String a p', String b s' => Ascii.eqb a b && prefixb p' s'
  | String _ _, EmptyString => false
  end.

(** [contains p s]: [p] occurs in [s] as a block of consecutive bytes. *)
Fixpoint contains (p s : string) : bool :=
  prefixb p s ||
  match s with
  | EmptyString => false
  | String _ s' => contains p s'
  end.

(** No byte of [s] is a newline. *)
Fixpoint no_newline (s : string) : bool :=
  match s with
  | EmptyString => true
  | String c s' => negb (Ascii.eqb c "010"%char) && no_newline s'
  end.

Definition is_digit (c : ascii) : bool :=
  let n := nat_of_ascii c in Nat.leb 48 n && Nat.leb n 57.

Fixpoint all_digits (s : string) : bool :=
  match s with
  | EmptyString => true
  | String c s' => is_digit c && all_digits s'
  end.

(** No byte of [s] is a decimal point. *)
Fixpoint no_point (s : string) : bool :=
  match s with
  | EmptyString => true
  | String c s' => negb (Ascii.eqb c "."%char) && no_point s'
  end.

Fixpoint leading_digits (s : string) : nat :=
  match s with
  | EmptyString => O
  | String c s' => if is_digit c then S (leading_digits s') else O
  end.

(** The number of digits that follow the first point of [s]. *)
Fixpoint fraction_digits (s : string) : nat :=
  match s with
  | EmptyString => O
  | String c s' =>
      if Ascii.eqb c "."%char then leading_digits s' else fraction_digits s'
  end.

(** Position of the first line equal to [l]. *)
Fixpoint index_of (l : string) (ls : list string) : option nat :=
  match ls with
  | [] => None
  | x :: ls' =>
      if String.eqb x l then Some O
      else option_map S (index_of l ls')
  end.

(** Positions of the lines in which [p] occurs. *)
Fixpoint positions_from (i : nat) (p : string) (ls : list string) : list nat :=
  match ls with
  | [] => []
  | x :: ls' =>
      if contains p x then i :: positions_from (S i) p ls'
      else positions_from (S i) p ls'
  end.

Definition positions (p : string) (ls : list string) : list nat :=
  positions_from O p ls.

End Str.

(** ** Decimal rendering of integers *)

Module Render.

(** [%d]: a minus sign for negative values, no leading zeros. *)
Definition dec (z : Z) : string := NilZero.string_of_int (Z.to_int z).

Definition digit (d : Z) : string :=
  String (ascii_of_nat (48 + Z.to_nat d)) EmptyString.

(** The [k] lowest decimal digits of [n], most significant first, padded
    with zeros on the left. *)
Fixpoint digits (k : nat) (n : Z) : string :=
  match k with
  | O => EmptyString
  | S k' => digits k' (n / 10) ++ digit (n mod 10)
  end.

End Render.


(** ** Floating-point values *)

Module Fp.

(** A binary interchange format: the width of the significand (with its
    leading bit) and the exponent of the infinities. *)
Record format := Format { prec : Z; emax : Z }.

Definition binary32 : format := Format 24 128.
Definition binary64 : format := Format 53 1024.
(** The 80-bit extended format of [long double] on x86. *)
Definition extended80 : format := Format 64 16384.

(** A decimal literal [m]e[e] (as [19.99] is 1999e-2), rounded to the
    nearest value of the format, ties to even. *)
Definition of_decimal (f : format) (m : Z) (e : Z) : spec_float :=
  if 0 <=? e
  then binary_normalize (prec f) (emax f) (m * 10 ^ e) 0 false
  else
    match m with
    | Z0 => S754_zero false
    | Zpos p =>
        SFdiv (prec f) (emax f)
          (S754_finite false p 0) (S754_finite false (Z.to_pos (10 ^ (- e))) 0)
    | Zneg p =>
        SFdiv (prec f) (emax f)
          (S754_finite true p 0) (S754_finite false (Z.to_pos (10 ^ (- e))) 0)
    end.

(** Integer to floating conversion. *)
Definition of_Z (f : format) (z : Z) : spec_float :=
  binary_normalize (prec f) (emax f) z 0 false.

(** Conversion between formats. *)
Definition convert (f : format) (x : spec_float) : spec_float :=
  match x with
  | S754_finite s m e => binary_round (prec f) (emax f) s m e
  | _ => x
  end.

Definition mul (f : format) (x y : spec_float) : spec_float :=
  SFmul (prec f) (emax f) x y.

Definition is_finite (x : spec_float) : bool :=
  match x with
  | S754_zero _ | S754_finite _ _ _ => true
  | _ => false
  end.

(** [x] is a positive number of the format [f] and lies within half a unit
    in the last place of the fraction [num / den]: it is a value of the
    format nearest to it. *)
Definition nearest_to (f : format) (x : spec_float) (num den : Z) : bool :=
  match x with
  | S754_finite false m e =>
      bounded (prec f) (emax f) m e &&
      (if 0 <=? e
       then Z.abs (2 * (Zpos m * 2 ^ e * den - num)) <=? 2 ^ e * den
       else Z.abs (2 * (Zpos m * den - num * 2 ^ (- e))) <=? den)
  | _ => false
  end.

(** The exact value of the finite number [m * 2^e] as a fraction. *)
Definition num_den (m : positive) (e : Z) : Z * Z :=
  if 0 <=? e then (Zpos m * 2 ^ e, 1) else (Zpos m, 2 ^ (- e)).

(** [x] is exactly the non-negative fraction [num / den]. *)
Definition equals_fraction (x : spec_float) (num den : Z) : bool :=
  match x with
  | S754_zero _ => num =? 0
  | S754_finite false m e => let '(n, d) := num_den m e in n * den =? num * d
  | _ => false
  end.

(** [n / d] rounded to the nearest integer, ties to even ([0 <= n],
    [0 < d]). *)
Definition rne_div (n d : Z) : Z :=
  let q := n / d in
  let r := n mod d in
  match 2 * r ?= d with
  | Lt => q
  | Gt => q + 1
  | Eq => if Z.even q then q else q + 1
  end.

(** [n / d * 10^k] rounded to the nearest integer, ties to even. *)
Definition scaled (n d k : Z) : Z :=
  if 0 <=? k then rne_div (n * 10 ^ k) d else rne_div n (d * 10 ^ (- k)).

Definition sign_text (s : bool) : string := if s then "-" else "".

(** [%.pf] of the non-negative fraction [n / d]. *)
Definition fixed_text (n d p : Z) : string :=
  let r := scaled n d p in
  Render.dec (r / 10 ^ p) ++
  (if p =? 0 then "" else "." ++ Render.digits (Z.to_nat p) (r mod 10 ^ p)).

(** A negative precision counts as the default one. *)
Definition effective (p : Z) : Z := if p <? 0 then 6 else p.

(** Output in the [std::fixed] notation: [%.pf]. *)
Definition fmt_fixed (p : Z) (x : spec_float) : string :=
  let p := effective p in
  match x with
  | S754_nan => "nan"
  | S754_infinity s => sign_text s ++ "inf"
  | S754_zero s => sign_text s ++ fixed_text 0 1 p
  | S754_finite s m e =>
      let '(n, d) := num_den m e in sign_text s ++ fixed_text n d p
  end.

(** The digits left once the zeros at the end are removed. *)
Fixpoint strip_zeros (s : string) : string :=
  match s with
  | EmptyString => EmptyString
  | String c s' =>
      match strip_zeros s' with
      | EmptyString => if Ascii.eqb c "0"%char then EmptyString else String c EmptyString
      | r => String c r
      end
  end.

Definition fraction_text (frac : string) : string :=
  match strip_zeros frac with
  | EmptyString => ""
  | r => "." ++ r
  end.

(** The number of decimal digits of [q >= 1]. *)
Fixpoint count_digits (fuel : nat) (q : Z) : Z :=
  match fuel with
  | O => 1
  | S fuel' => if q <? 10 then 1 else 1 + count_digits fuel' (q / 10)
  end.

(** The least [k >= 1] with [d <= n * 10^k], for [0 < n < d]. *)
Fixpoint shift_count (fuel : nat) (n d : Z) : Z :=
  match fuel with
  | O => 1
  | S fuel' => if d <=? n * 10 then 1 else 1 + shift_count fuel' (n * 10) d
  end.

(** The decimal exponent of [n / d > 0]: the [x] with
    [10^x <= n / d < 10^(x+1)]. *)
Definition floor_log10 (n d : Z) : Z :=
  if d <=? n
  then count_digits (S (Z.to_nat (Z.log2 (n / d)))) (n / d) - 1
  else - shift_count (S (Z.to_nat (Z.log2 d))) n d.

(** The exponent field of the scientific notation: a sign and at least two
    digits. *)
Definition exponent_text (x : Z) : string :=
  (if x <? 0 then "-" else "+") ++
  (if Z.abs x <? 10 then "0" else "") ++ Render.dec (Z.abs x).

(** [%.pg] of the positive fraction [n / d]: [p] significant digits ([p]
    at least 1), in the fixed notation when the decimal exponent [x] of the
    rounded value satisfies [-4 <= x < p] and in the scientific one
    otherwise, and without the zeros that end the fraction. *)
Definition general_text (n d p : Z) : string :=
  let x0 := floor_log10 n d in
  let x := if 10 ^ p <=? scaled n d (p - 1 - x0) then x0 + 1 else x0 in
  let sig := scaled n d (p - 1 - x) in
  if (x <? -4) || (p <=? x)
  then
    Render.dec (sig / 10 ^ (p - 1)) ++
    fraction_text (Render.digits (Z.to_nat (p - 1)) (sig mod 10 ^ (p - 1))) ++
    "e" ++ exponent_text x
  else
    let q := p - 1 - x in
    Render.dec (sig / 10 ^ q) ++
    fraction_text (Render.digits (Z.to_nat q) (sig mod 10 ^ q)).

(** Output with no floatfield flag set: [%.pg]. *)
Definition fmt_general (p : Z) (x : spec_float) : string :=
  let p := effective p in
  let p := if p =? 0 then 1 else p in
  match x with
  | S754_nan => "nan"
  | S754_infinity s => sign_text s ++ "inf"
  | S754_zero s => sign_text s ++ "0"
  | S754_finite s m e =>
      let '(n, d) := num_den m e in sign_text s ++ general_text n d p
  end.

End Fp.

(** ** The C++ value types the programs print *)

(** [double], [float] and [long double] are kept apart because
    [operator<<] is overloaded on them. *)
Record double := Double { double_val : spec_float }.
Record float := Float { float_val : spec_float }.
Record long_double := LongDouble { long_double_val : spec_float }.

Module Lit.

(** The literal [m]e[e] of type [double], [float] (suffix [f]) and
    [long double] (suffix [L]). *)
Definition d (m e : Z) : double := Double (Fp.of_decimal Fp.binary64 m e).
Definition f (m e : Z) : float := Float (Fp.of_decimal Fp.binary32 m e).
Definition l (m e : Z) : long_double := LongDouble (Fp.of_decimal Fp.extended80 m e).

End Lit.

(** [x * y] on [double]. *)
Definition double_mul (x y : double) : double :=
  Double (Fp.mul Fp.binary64 (double_val x) (double_val y)).

(** The usual arithmetic conversion of an [int] operand to [double]. *)
Definition double_of_int (z : Z) : double := Double (Fp.of_Z Fp.binary64 z).

(** ** The output stream *)

(** The formatting state of a stream, as far as the programs touch it:
    the [std::ios_base::fixed] bit of the floatfield, [precision()] and the
    [boolalpha] bit.  The rest of the formatting state of [std::cout] (the
    number base, [showpos], [showpoint], the scientific bit, width and fill)
    is not represented: it is that of a fresh process, which neither program
    changes. *)
Record fmtflags := Fmtflags {
  fixed_flag : bool;
  precision : Z;
  boolalpha_flag : bool
}.

(** [std::cout]: what was written so far and the formatting state.  The
    text is kept as the sequence of writes, each with the nesting depth of
    the block whose statement wrote it ([depth] is the depth of the
    statement being executed: 0 in the body of [main], one more inside each
    pair of braces). *)
Record ostream := Ostream {
  written : list (nat * string);
  depth : nat;
  flags : fmtflags
}.

(** The bytes on standard output. *)
Definition buf (os : ostream) : string :=
  Str.flatten (map snd (written os)).

(** The stream at program start. *)
Definition cout_init : ostream :=
  {| written := []; depth := O;
     flags := {| fixed_flag := false; precision := 6; boolalpha_flag := false |} |}.

Definition write (os : ostream) (s : string) : ostream :=
  {| written := (written os ++ [(depth os, s)])%list;
     depth := depth os;
     flags := flags os |}.

(** Entering and leaving a block statement. *)
Definition open_block (os : ostream) : ostream :=
  {| written := written os; depth := S (depth os); flags := flags os |}.

Definition close_block (os : ostream) : ostream :=
  {| written := written os; depth := Nat.pred (depth os); flags := flags os |}.

Definition with_flags (os : ostream) (fl : fmtflags) : ostream :=
  {| written := written os; depth := depth os; flags := fl |}.

(** The stream manipulators the programs use. *)
Inductive manip :=
| endl
| fixed
| boolalpha
| setprecision (n : Z).

(** [setf(std::ios_base::fixed, floatfield)], [setf(boolalpha)] and
    [precision(n)]. *)
Definition set_fixed (fl : fmtflags) : fmtflags :=
  {| fixed_flag := true; precision := precision fl;
     boolalpha_flag := boolalpha_flag fl |}.

Definition set_boolalpha (fl : fmtflags) : fmtflags :=
  {| fixed_flag := fixed_flag fl; precision := precision fl;
     boolalpha_flag := true |}.

Definition set_precision (n : Z) (fl : fmtflags) : fmtflags :=
  {| fixed_flag := fixed_flag fl; precision := n;
     boolalpha_flag := boolalpha_flag fl |}.

Definition apply_manip (os : ostream) (m : manip) : ostream :=
  match m with
  | endl => write os Str.newline
  | fixed => with_flags os (set_fixed (flags os))
  | boolalpha => with_flags os (set_boolalpha (flags os))
  | setprecision n => with_flags os (set_precision n (flags os))
  end.

(** The text of a floating-point value under the flags.  A NaN carries no
    sign in [spec_float] and is written [nan]; none arises from a literal
    height, nor from its product by 100 or by 39.37. *)
Definition fmt_float (fl : fmtflags) (x : spec_float) : string :=
  if fixed_flag fl
  then Fp.fmt_fixed (precision fl) x
  else Fp.fmt_general (precision fl) x.

Definition fmt_bool (fl : fmtflags) (b : bool) : string :=
  if boolalpha_flag fl
  then (if b then "true" else "false")
  else (if b then "1" else "0").

(** The text [operator<<] writes for a value, one instance per overload. *)
Class Render (A : Type) := render : fmtflags -> A -> string.

#[export] Instance render_string : Render string :=
  fun _ s => s.
#[export] Instance render_char : Render ascii :=
  fun _ c => String c EmptyString.
(** All the integer types print alike: [int], [short], [long],
    [long long] and the [size_t] of [length()]; in base ten and without a
    plus sign, the base and [showpos] being those of a fresh process. *)
#[export] Instance render_int : Render Z :=
  fun _ z => Render.dec z.
#[export] Instance render_bool : Render bool :=
  fun fl b => fmt_bool fl b.
#[export] Instance render_double : Render double :=
  fun fl x => fmt_float fl (double_val x).
(** A [float] is printed through its conversion to [double]. *)
#[export] Instance render_float : Render float :=
  fun fl x => fmt_float fl (Fp.convert Fp.binary64 (float_val x)).
#[export] Instance render_long_double : Render long_double :=
  fun fl x => fmt_float fl (long_double_val x).

(** [operator<<]: a value is written as its text under the flags of the
    stream, a manipulator acts on the stream. *)
Class Insert (A : Type) := insert : ostream -> A -> ostream.

Notation "os << x" := (insert os x) (at level 40, left associativity).

#[export] Instance insert_value {A : Type} `{Render A} : Insert A :=
  fun os x => write os (render (flags os) x).
#[export] Instance insert_manip : Insert manip :=
  fun os m => apply_manip os m.

(** What a run leaves behind: the stream as the program left it and the
    value [main] returned. *)
Record outcome := Outcome { final : ostream; status : Z }.

Definition stdout (r : outcome) : string := buf (final r).

(** The lines of the output, each with the block depth at which its
    newline was written. *)
Module Trace.

Fixpoint tag (d : nat) (s : string) : list (ascii * nat) :=
  match s with
  | EmptyString => []
  | String c s' => (c, d) :: tag d s'
  end.

Definition bytes (os : ostream) : list (ascii * nat) :=
  flat_map (fun w => tag (fst w) (snd w)) (written os).

Fixpoint split (cur : string) (l : list (ascii * nat)) : list (nat * string) :=
  match l with
  | [] => []
  | (c, d) :: l' =>
      if Ascii.eqb c "010"%char
      then (d, cur) :: split EmptyString l'
      else split (cur ++ String c EmptyString) l'
  end.

Definition lines (os : ostream) : list (nat * string) :=
  split EmptyString (bytes os).

(** Positions of the lines written at depth [d]. *)
Fixpoint at_depth_from (i : nat) (d : nat) (ls : list (nat * string)) : list nat :=
  match ls with
  | [] => []
  | (d', _) :: ls' =>
      if Nat.eqb d' d then i :: at_depth_from (S i) d ls'
      else at_depth_from (S i) d ls'
  end.

Definition at_depth (d : nat) (ls : list (nat * string)) : list nat :=
  at_depth_from O d ls.

(** The lines written before the first block is entered, those written
    inside a block, and those written after the last block is left. *)
Fixpoint before_block (ls : list (nat * string)) : list string :=
  match ls with
  | [] => []
  | (d, l) :: ls' => if Nat.eqb d 0 then l :: before_block ls' else []
  end.

Definition in_block (ls : list (nat * string)) : list string :=
  map snd (filter (fun dl => negb (Nat.eqb (fst dl) 0)) ls).

Definition after_block (ls : list (nat * string)) : list string :=
  rev (before_block (rev ls)).

End Trace.

(** ** Component A: [lesson1_variables.cpp] *)

Module Lesson1.

(** [main] is one function in the source; it is cut here at its section
    comments, and no variable is used outside the section that declares
    it.  Each declaration is a [let], so the scope of a variable is the
    scope the source gives it. *)

(** 1. INTEGER TYPES.  The four integer types differ in width only; the
    values shown fit all of them. *)
Definition integer_types (cout : ostream) : ostream :=
  let cout := cout << "1. INTEGER TYPES:" << endl in
  let age := 25 in
  let smallNumber := 100 in
  let largeNumber := 1000000 in
  let veryLarge := 123456789012345 in
  let cout := cout << "int age = " << age << endl in
  let cout := cout << "short smallNumber = " << smallNumber << endl in
  let cout := cout << "long largeNumber = " << largeNumber << endl in
  let cout := cout << "long long veryLarge = " << veryLarge << endl in
  let cout := cout << endl in
  cout.

(** 2. FLOATING POINT TYPES.  [long double] is taken as the 80-bit extended
    format. *)
Definition floating_point_types (cout : ostream) : ostream :=
  let cout := cout << "2. FLOATING POINT TYPES:" << endl in
  let price := Lit.f 1999 (-2) in
  let distance := Lit.d 3844005 (-1) in
  let precise := Lit.l 314159265358979323846 (-20) in
  let cout := cout << fixed << setprecision 2 in
  let cout := cout << "float price = $" << price << endl in
  let cout := cout << "double distance = " << distance << " km" << endl in
  let cout := cout << setprecision 10 in
  let cout := cout << "long double precise = " << precise << endl in
  let cout := cout << endl in
  cout.

(** 3. CHARACTER TYPE *)
Definition character_type (cout : ostream) : ostream :=
  let cout := cout << "3. CHARACTER TYPE:" << endl in
  let grade := "A"%char in
  let symbol := "$"%char in
  let cout := cout << "char grade = '" << grade << "'" << endl in
  let cout := cout << "char symbol = '" << symbol << "'" << endl in
  let cout := cout << endl in
  cout.

(** 4. BOOLEAN TYPE *)
Definition boolean_type (cout : ostream) : ostream :=
  let cout := cout << "4. BOOLEAN TYPE:" << endl in
  let isStudent := true in
  let hasLicense := false in
  let cout := cout << boolalpha in
  let cout := cout << "bool isStudent = " << isStudent << endl in
  let cout := cout << "bool hasLicense = " << hasLicense << endl in
  let cout := cout << endl in
  cout.

(** 5. STRING TYPE.  [string_type_of] is the body of the section for any
    two names, [string_type] the section with the literals of the file. *)
Definition fullName (firstName lastName : string) : string :=
  Str.plus (Str.plus firstName " ") lastName.

Definition string_type_of (firstName lastName : string) (cout : ostream) : ostream :=
  let fullName := fullName firstName lastName in
  let cout := cout << ("std::string firstName = " ++ Str.dquote) << firstName << Str.dquote << endl in
  let cout := cout << ("std::string lastName = " ++ Str.dquote) << lastName << Str.dquote << endl in
  let cout := cout << ("std::string fullName = " ++ Str.dquote) << fullName << Str.dquote << endl in
  let cout := cout << "String length: " << Str.length fullName << " characters" << endl in
  let cout := cout << endl in
  cout.

Definition string_type (cout : ostream) : ostream :=
  let cout := cout << "5. STRING TYPE:" << endl in
  let firstName := "John" in
  let lastName := "Doe" in
  string_type_of firstName lastName cout.

(** 6. CONSTANTS *)
Definition constants (cout : ostream) : ostream :=
  let cout := cout << "6. CONSTANTS:" << endl in
  let PI := Lit.d 314159 (-5) in
  let DAYS_IN_WEEK := 7 in
  let cout := cout << "const double PI = " << PI << endl in
  let cout := cout << "const int DAYS_IN_WEEK = " << DAYS_IN_WEEK << endl in
  let cout := cout << endl in
  cout.

(** 7. AUTO KEYWORD *)
Definition auto_keyword (cout : ostream) : ostream :=
  let cout := cout << "7. AUTO KEYWORD (Modern C++):" << endl in
  let autoInt := 42 in
  let autoDouble := Lit.d 314 (-2) in
  let autoString := "Hello" in
  let cout := cout << "auto autoInt = " << autoInt << " (type: int)" << endl in
  let cout := cout << "auto autoDouble = " << autoDouble << " (type: double)" << endl in
  let cout := cout << ("auto autoString = " ++ Str.dquote) << autoString
                   << (Str.dquote ++ " (type: string)") << endl in
  let cout := cout << endl in
  cout.

(** 8. VARIABLE SCOPE EXAMPLE.  The inner [let] is the block statement:
    [localVar] is not in scope after it. *)
Definition variable_scope (cout : ostream) : ostream :=
  let cout := cout << "8. VARIABLE SCOPE:" << endl in
  let globalVar := 100 in
  let cout :=
    let cout := open_block cout in
    let localVar := 200 in
    let cout := cout << "Inside block - globalVar: " << globalVar << endl in
    let cout := cout << "Inside block - localVar: " << localVar << endl in
    close_block cout in
  let cout := cout << "Outside block - globalVar: " << globalVar << endl in
  let cout := cout << endl in
  cout.

Definition main (cout : ostream) : outcome :=
  let cout := cout << "=== C++ Lesson 1: Variables and Data Types ===" << endl in
  let cout := cout << endl in
  let cout := integer_types cout in
  let cout := floating_point_types cout in
  let cout := character_type cout in
  let cout := boolean_type cout in
  let cout := string_type cout in
  let cout := constants cout in
  let cout := auto_keyword cout in
  let cout := variable_scope cout in
  let cout := cout << "🎉 Lesson 1 Complete! Try modifying the values and recompiling." << endl in
  {| final := cout; status := 0 |}.

End Lesson1.

(** ** Component B: [exercise1_personal_info.cpp] *)

Module Exercise1.

(** The values the reader is asked to replace before building ([age] is an
    [int], [height] a [double], [grade] a [char]). *)
Record info := Info {
  name : string;
  age : Z;
  height : double;
  grade : ascii;
  isLearning : bool;
  hobby : string;
  COUNTRY : string
}.

(** The values of the file as it stands. *)
Definition placeholders : info :=
  {| name := "Your Name Here";
     age := 0;
     height := Lit.d 0 (-1);
     grade := "A"%char;
     isLearning := true;
     hobby := "Your favorite hobby";
     COUNTRY := "Your Country" |}.

(** [main], with the initialisers of the seven variables taken from [v]. *)
Definition main_of (v : info) (cout : ostream) : outcome :=
  let cout := cout << "=== Exercise 1: Personal Information Program ===" << endl in
  let cout := cout << "Fill in your own information by modifying the variables below:" << endl in
  let cout := cout << endl in
  let name := name v in
  let age := age v in
  let height := height v in
  let grade := grade v in
  let isLearning := isLearning v in
  let hobby := hobby v in
  let COUNTRY := COUNTRY v in
  let birthYear := CInt.int_sub 2025 age in
  let heightInCm := double_mul height (double_of_int 100) in
  let cout := cout << "📋 Personal Information:" << endl in
  let cout := cout << "Name: " << name << endl in
  let cout := cout << "Age: " << age << " years old" << endl in
  let cout := cout << "Approximate birth year: " << birthYear << endl in
  let cout := cout << "Height: " << height << "m (" << heightInCm << "cm)" << endl in
  let cout := cout << "Favorite grade: " << grade << endl in
  let cout := cout << "Currently learning C++: " << (if isLearning then "Yes!" else "No") << endl in
  let cout := cout << "Favorite hobby: " << hobby << endl in
  let cout := cout << "Country: " << COUNTRY << endl in
  let cout := cout << endl in
  let cout := cout << "🔢 Fun Calculations:" << endl in
  let cout := cout << "Days lived (approximately): " << CInt.int_mul age 365 << " days" << endl in
  let cout := cout << "Height in inches (approximately): "
                   << double_mul height (Lit.d 3937 (-2)) << " inches" << endl in
  let cout := cout << "Name length: " << Str.length name << " characters" << endl in
  let cout := cout << endl in
  let cout := cout << "✅ Exercise 1 complete! Great job practicing with variables!" << endl in
  {| final := cout; status := 0 |}.

(** [main] as the file has it. *)
Definition main (cout : ostream) : outcome := main_of placeholders cout.

End Exercise1.

(** * Vocabulary of the specification *)

(** ** Runs *)

(** A program is a component together with the source-level values it is
    built with: Component A has none to choose, Component B has the
    record the reader fills in. *)
Inductive program :=
| lesson1
| exercise1 (v : Exercise1.info).

(** One execution, from the stream of a fresh process. *)
Definition exec (p : program) : outcome :=
  match p with
  | lesson1 => Lesson1.main cout_init
  | exercise1 v => Exercise1.main_of v cout_init
  end.

(** [runs p r]: a run of [p] ends with outcome [r]. *)
Inductive runs : program -> outcome -> Prop :=
| runs_lesson1 : runs lesson1 (Lesson1.main cout_init)
| runs_exercise1 v : runs (exercise1 v) (Exercise1.main_of v cout_init).

Definition lesson1_closing : string :=
  "🎉 Lesson 1 Complete! Try modifying the values and recompiling.".

Definition exercise1_closing : string :=
  "✅ Exercise 1 complete! Great job practicing with variables!".

Definition closing_line (p : program) : string :=
  match p with
  | lesson1 => lesson1_closing
  | exercise1 _ => exercise1_closing
  end.

(** The last line of a text. *)
Definition last_line (s : string) : string := last (Str.lines s) "".

(** [appends os os' t fl]: the stream [os'] is [os] after the text [t] was
    written to it, and its flags are [fl]. *)
Definition appends (os os' : ostream) (t : string) (fl : fmtflags) : Prop :=
  buf os' = buf os ++ t /\ flags os' = fl.

(** ** Component B as a text *)

Section Exercise1Text.

Variable v : Exercise1.info.
Variable os : ostream.

(** The lines of the personal record, as written for [v] on a stream whose
    formatting state is that of [os]. *)
Definition exercise1_record : list string :=
  [ "Name: " ++ Exercise1.name v;
    "Age: " ++ Render.dec (Exercise1.age v) ++ " years old";
    "Approximate birth year: " ++ Render.dec (CInt.int_sub 2025 (Exercise1.age v));
    "Height: " ++ fmt_float (flags os) (double_val (Exercise1.height v)) ++ "m (" ++
      fmt_float (flags os) (double_val (double_mul (Exercise1.height v) (double_of_int 100))) ++ "cm)";
    "Favorite grade: " ++ String (Exercise1.grade v) "";
    "Currently learning C++: " ++ (if Exercise1.isLearning v then "Yes!" else "No");
    "Favorite hobby: " ++ Exercise1.hobby v;
    "Country: " ++ Exercise1.COUNTRY v ].

(** The lines of the calculations. *)
Definition exercise1_calculations : list string :=
  [ "Days lived (approximately): " ++ Render.dec (CInt.int_mul (Exercise1.age v) 365) ++ " days";
    "Height in inches (approximately): " ++
      fmt_float (flags os) (double_val (double_mul (Exercise1.height v) (Lit.d 3937 (-2)))) ++ " inches";
    "Name length: " ++ Render.dec (Str.length (Exercise1.name v)) ++ " characters" ].

Definition exercise1_head : list string :=
  [ "=== Exercise 1: Personal Information Program ===";
    "Fill in your own information by modifying the variables below:";
    "";
    "📋 Personal Information:" ].

Definition exercise1_lines : list string :=
  (exercise1_head
   ++ exercise1_record
   ++ [ ""; "🔢 Fun Calculations:" ]
   ++ exercise1_calculations
   ++ [ ""; exercise1_closing ])%list.

End Exercise1Text.

(** A record breaks no line when none of its texts holds a newline. *)
Definition one_line_fields (v : Exercise1.info) : bool :=
  Str.no_newline (Exercise1.name v) &&
  negb (Ascii.eqb (Exercise1.grade v) "010"%char) &&
  Str.no_newline (Exercise1.hobby v) &&
  Str.no_newline (Exercise1.COUNTRY v).

(** The lines of the personal record are those that show a field of the
    record; the derived metrics are the birth year, the height in
    centimetres (on the height line), the days lived and the height in
    inches. *)
Definition is_record_line (l : string) : bool :=
  existsb (fun p => Str.prefixb p l)
    [ "Name: "; "Age: "; "Height: "; "Favorite grade: ";
      "Currently learning C++: "; "Favorite hobby: "; "Country: " ].

Definition is_metric_line (l : string) : bool :=
  Str.prefixb "Approximate birth year: " l
  || (Str.prefixb "Height: " l && Str.contains "cm)" l)
  || Str.prefixb "Days lived (approximately): " l
  || Str.prefixb "Height in inches (approximately): " l.

(** The two metrics that are printed under the calculations heading. *)
Definition is_calculation_line (l : string) : bool :=
  Str.prefixb "Days lived (approximately): " l
  || Str.prefixb "Height in inches (approximately): " l.

Definition is_name_length_line (l : string) : bool :=
  Str.prefixb "Name length: " l.

(** Every line of the first kind comes before every line of the second. *)
Definition all_before (P Q : string -> bool) (L : list string) : Prop :=
  forall i j a b,
    nth_error L i = Some a -> P a = true ->
    nth_error L j = Some b -> Q b = true ->
    (i < j)%nat.

(** The same, as a test. *)
Definition all_beforeb (P Q : string -> bool) (L : list string) : bool :=
  forallb (fun i =>
    forallb (fun j =>
      match nth_error L i, nth_error L j with
      | Some a, Some b => negb (P a && Q b) || Nat.ltb i j
      | _, _ => true
      end) (seq 0 (List.length L))) (seq 0 (List.length L)).

(** ** Component A as a text *)

(** The section headings of Component A, in the order of the
    specification: integers, floating-point, character, boolean, string,
    constants, inferred-type values, scope demonstration. *)
Definition lesson1_headers : list string :=
  [ "1. INTEGER TYPES:"; "2. FLOATING POINT TYPES:"; "3. CHARACTER TYPE:";
    "4. BOOLEAN TYPE:"; "5. STRING TYPE:"; "6. CONSTANTS:";
    "7. AUTO KEYWORD (Modern C++):"; "8. VARIABLE SCOPE:" ].

(** The sample values Component A declares, each with the number of the
    section that declares it. *)
Definition lesson1_samples : list (string * nat) :=
  [ ("age", 1); ("smallNumber", 1); ("largeNumber", 1); ("veryLarge", 1);
    ("price", 2); ("distance", 2); ("precise", 2);
    ("grade", 3); ("symbol", 3);
    ("isStudent", 4); ("hasLicense", 4);
    ("firstName", 5); ("lastName", 5); ("fullName", 5);
    ("PI", 6); ("DAYS_IN_WEEK", 6);
    ("autoInt", 7); ("autoDouble", 7); ("autoString", 7);
    ("globalVar", 8); ("localVar", 8) ]%nat.

(** The lines labelled with the variable [x] are those its name occurs
    in. *)
Definition labelled (x : string) (L : list string) : list nat :=
  Str.positions x L.

(** The section a line belongs to: the number of headings at or above
    it. *)
Definition section_of (L : list string) (i : nat) : nat :=
  List.length
    (filter (fun h => match Str.index_of h L with
                      | Some j => Nat.leb j i
                      | None => false
                      end) lesson1_headers).

(** The headings occur, each once, in the order of [lesson1_headers]. *)
Fixpoint increasing (l : list (option nat)) : bool :=
  match l with
  | Some i :: ((Some j :: _) as l') => Nat.ltb i j && increasing l'
  | [Some _] => true
  | [] => true
  | _ => false
  end.

Definition sections_in_order (L : list string) : Prop :=
  increasing (map (fun h => Str.index_of h L) lesson1_headers) = true /\
  Forall (fun h => List.length (Str.positions h L) = 1%nat) lesson1_headers.

(** ** Vocabulary of the further properties *)

(** The number of newline bytes of a text. *)
Fixpoint count_newlines (s : string) : nat :=
  match s with
  | EmptyString => O
  | String c s' =>
      if Ascii.eqb c "010"%char then S (count_newlines s') else count_newlines s'
  end.

(** The height literal with two decimals that stands for [c] centimetres
    ([1.75] for 175), and the way it is typed once the zeros that end it are
    dropped ([1.7] for 170, [2] for 200). *)
Definition height_of_cm (c : Z) : double := Lit.d c (-2).

Definition typed_height (c : Z) : string :=
  Render.dec (c / 100) ++ Fp.fraction_text (Render.digits 2 (c mod 100)).

(** The exact decimal product of [c / 100] by 39.37, which has four
    decimals, without the zeros that end it. *)
Definition exact_inches (c : Z) : string :=
  Render.dec (c * 3937 / 10000) ++
  Fp.fraction_text (Render.digits 4 (c * 3937 mod 10000)).

(** The integers from 0 to [n - 1]. *)
Definition upto (n : nat) : list Z := map Z.of_nat (seq 0 n).

(** The flags Component A leaves behind. *)
Definition lesson1_flags : fmtflags :=
  {| fixed_flag := true; precision := 10; boolalpha_flag := true |}.

(** No byte of [s] is a space. *)
Fixpoint no_space (s : string) : bool :=
  match s with
  | EmptyString => true
  | String c s' => negb (Ascii.eqb c " "%char) && no_space s'
  end.

(** * Properties *)

(** ** Strings and the stream *)

Lemma append_assoc (a b c : string) : (a ++ b) ++ c = a ++ (b ++ c).
Proof. induction a as [|x a IH]; simpl; [reflexivity | now rewrite IH]. Qed.

Lemma append_nil_r (a : string) : a ++ "" = a.
Proof. induction a as [|x a IH]; simpl; [reflexivity | now rewrite IH]. Qed.

Lemma length_append (a b : string) :
  String.length (a ++ b) = (String.length a + String.length b)%nat.
Proof. induction a as [|x a IH]; simpl; [reflexivity | now rewrite IH]. Qed.

Lemma flatten_app (l1 l2 : list string) :
  Str.flatten (l1 ++ l2) = Str.flatten l1 ++ Str.flatten l2.
Proof.
  induction l1 as [|x l1 IH]; simpl; [reflexivity|].
  unfold Str.flatten in *; simpl. now rewrite IH, append_assoc.
Qed.

Lemma buf_write (os : ostream) (s : string) : buf (write os s) = buf os ++ s.
Proof.
  unfold buf, write; simpl.
  rewrite map_app, flatten_app; simpl. now rewrite append_nil_r.
Qed.

(** The effect of each operation on the text and on the flags. *)
Section Appends.

Variables (os X : ostream) (t : string) (fl : fmtflags).
Hypothesis H : appends os X t fl.

Lemma appends_refl : appends os os "" (flags os).
Proof. split; [now rewrite append_nil_r | reflexivity]. Qed.

Lemma appends_value {A : Type} `{Render A} (x : A) :
  appends os (X << x) (t ++ render fl x) fl.
Proof.
  destruct H as [Hb Hf]. split; [|exact Hf].
  unfold insert, insert_value. rewrite buf_write, Hb, Hf. apply append_assoc.
Qed.

Lemma appends_endl : appends os (X << endl) (t ++ Str.newline) fl.
Proof.
  destruct H as [Hb Hf]. split; [|exact Hf].
  unfold insert, insert_manip, apply_manip. rewrite buf_write, Hb. apply append_assoc.
Qed.

Lemma appends_fixed : appends os (X << fixed) t (set_fixed fl).
Proof. destruct H as [Hb Hf]. split; [exact Hb | cbn; now rewrite Hf]. Qed.

Lemma appends_boolalpha : appends os (X << boolalpha) t (set_boolalpha fl).
Proof. destruct H as [Hb Hf]. split; [exact Hb | cbn; now rewrite Hf]. Qed.

Lemma appends_setprecision n : appends os (X << setprecision n) t (set_precision n fl).
Proof. destruct H as [Hb Hf]. split; [exact Hb | cbn; now rewrite Hf]. Qed.

Lemma appends_open_block : appends os (open_block X) t fl.
Proof. exact H. Qed.

Lemma appends_close_block : appends os (close_block X) t fl.
Proof. exact H. Qed.

End Appends.

Lemma appends_eq (os X : ostream) (t t' : string) (fl fl' : fmtflags) :
  appends os X t fl -> t = t' -> fl = fl' -> appends os X t' fl'.
Proof. now intros H <- <-. Qed.

(** Running a chain of insertions symbolically, from the last one back to
    the stream it starts from. *)
Ltac appends_step :=
  lazymatch goal with
  | |- appends _ (@insert manip _ _ endl) _ _ => simple eapply appends_endl
  | |- appends _ (@insert manip _ _ fixed) _ _ => simple eapply appends_fixed
  | |- appends _ (@insert manip _ _ boolalpha) _ _ => simple eapply appends_boolalpha
  | |- appends _ (@insert manip _ _ (setprecision _)) _ _ =>
      simple eapply appends_setprecision
  | |- appends _ (@insert _ _ _ _) _ _ => simple eapply appends_value
  | |- appends _ (open_block _) _ _ => simple eapply appends_open_block
  | |- appends _ (close_block _) _ _ => simple eapply appends_close_block
  | |- appends ?os ?os _ _ => simple eapply appends_refl
  | |- appends _ _ _ _ => eassumption
  end.

Ltac appends_solve := cbv zeta; repeat appends_step.

Ltac text_norm :=
  unfold render, render_string, render_char, render_int, render_bool,
    render_double, render_float, render_long_double;
  unfold Str.unlines; cbn [map Str.flatten fold_right];
  repeat rewrite append_assoc; cbn [String.append];
  repeat rewrite append_nil_r.

(** ** Rendering *)

Lemma all_digits_app (a b : string) :
  Str.all_digits a = true -> Str.all_digits b = true -> Str.all_digits (a ++ b) = true.
Proof.
  induction a as [|c a IH]; simpl; intros Ha Hb; [exact Hb|].
  apply andb_true_iff in Ha as [Hc Ha]. rewrite Hc. simpl. now apply IH.
Qed.

Lemma no_point_app (a b : string) :
  Str.no_point a = true -> Str.no_point b = true -> Str.no_point (a ++ b) = true.
Proof.
  induction a as [|c a IH]; simpl; intros Ha Hb; [exact Hb|].
  apply andb_true_iff in Ha as [Hc Ha]. rewrite Hc. simpl. now apply IH.
Qed.

Lemma digit_all_digits (d : Z) : 0 <= d < 10 -> Str.all_digits (Render.digit d) = true.
Proof.
  intros H.
  assert (E : d = 0 \/ d = 1 \/ d = 2 \/ d = 3 \/ d = 4 \/
              d = 5 \/ d = 6 \/ d = 7 \/ d = 8 \/ d = 9) by lia.
  repeat (destruct E as [-> | E]; [reflexivity|]). subst. reflexivity.
Qed.

Lemma digits_all_digits (k : nat) (n : Z) : Str.all_digits (Render.digits k n) = true.
Proof.
  revert n. induction k as [|k IH]; intros n; simpl; [reflexivity|].
  apply all_digits_app; [apply IH|].
  apply digit_all_digits. apply Z.mod_pos_bound. lia.
Qed.

Lemma digits_length (k : nat) (n : Z) : String.length (Render.digits k n) = k.
Proof.
  revert n. induction k as [|k IH]; intros n; simpl; [reflexivity|].
  rewrite length_append, IH. simpl. lia.
Qed.

Lemma leading_digits_all (s : string) :
  Str.all_digits s = true -> Str.leading_digits s = String.length s.
Proof.
  induction s as [|c s IH]; simpl; intros H; [reflexivity|].
  apply andb_true_iff in H as [Hc Hs]. rewrite Hc. now rewrite IH.
Qed.

Lemma fraction_digits_point (a b : string) :
  Str.no_point a = true -> Str.fraction_digits (a ++ "." ++ b) = Str.leading_digits b.
Proof.
  induction a as [|c a IH]; simpl; intros H; [reflexivity|].
  apply andb_true_iff in H as [Hc Ha].
  destruct (Ascii.eqb c "."); [discriminate|]. now apply IH.
Qed.

Lemma uint_no_point (d : Decimal.uint) : Str.no_point (NilEmpty.string_of_uint d) = true.
Proof. induction d; simpl; auto. Qed.

Lemma dec_no_point (z : Z) : Str.no_point (Render.dec z) = true.
Proof.
  unfold Render.dec, NilZero.string_of_int.
  destruct (Z.to_int z) as [d|d]; simpl;
    unfold NilZero.string_of_uint; destruct d; try reflexivity; simpl;
    apply uint_no_point.
Qed.

(** In the fixed notation a finite value is written with exactly as many
    decimal places as the precision says. *)
Lemma fmt_fixed_fraction_digits (p : Z) (x : spec_float) :
  0 < p -> Fp.is_finite x = true ->
  Str.fraction_digits (Fp.fmt_fixed p x) = Z.to_nat p.
Proof.
  intros Hp Hx.
  assert (Hpoint : forall s n d,
             Str.fraction_digits (Fp.sign_text s ++ Fp.fixed_text n d p) = Z.to_nat p).
  { intros s n d. unfold Fp.fixed_text.
    destruct (Z.eqb_spec p 0) as [E|_]; [lia|].
    rewrite <- append_assoc.
    rewrite fraction_digits_point.
    - rewrite leading_digits_all by apply digits_all_digits. apply digits_length.
    - apply no_point_app; [destruct s; reflexivity | apply dec_no_point]. }
  unfold Fp.fmt_fixed, Fp.effective.
  destruct (Z.ltb_spec p 0) as [E|_]; [lia|].
  destruct x as [s|s| |s m e]; try discriminate Hx.
  - apply Hpoint.
  - destruct (Fp.num_den m e) as [n d]. apply Hpoint.
Qed.

(** The decimal exponent is the right one. *)
Lemma count_digits_spec (fuel : nat) (q : Z) :
  1 <= q -> Z.log2 q < Z.of_nat fuel ->
  1 <= Fp.count_digits fuel q /\
  10 ^ (Fp.count_digits fuel q - 1) <= q < 10 ^ (Fp.count_digits fuel q).
Proof.
  revert q. induction fuel as [|fuel IH]; intros q Hq Hlog.
  - pose proof (Z.log2_nonneg q). lia.
  - cbn [Fp.count_digits].
    destruct (Z.ltb_spec q 10) as [Hlt|Hge].
    + change (10 ^ (1 - 1)) with 1. change (10 ^ 1) with 10. lia.
    + assert (Hq' : 1 <= q / 10) by (apply Z.div_le_lower_bound; lia).
      assert (Hlog' : Z.log2 (q / 10) < Z.of_nat fuel).
      { apply Z.log2_lt_pow2; [lia|].
        assert (Hb : q < 2 ^ (Z.of_nat fuel + 1)).
        { apply Z.log2_lt_pow2; lia. }
        rewrite Z.pow_add_r in Hb by lia. change (2 ^ 1) with 2 in Hb.
        apply Z.div_lt_upper_bound; lia. }
      destruct (IH (q / 10) Hq' Hlog') as (Hk & Hlo & Hhi).
      set (k := Fp.count_digits fuel (q / 10)) in *.
      replace (1 + k - 1) with k by lia.
      replace (1 + k) with (k + 1) by lia.
      rewrite Z.pow_add_r by lia. change (10 ^ 1) with 10.
      assert (E : 10 ^ k = 10 ^ (k - 1) * 10).
      { replace k with (k - 1 + 1) at 1 by lia.
        rewrite Z.pow_add_r by lia. reflexivity. }
      pose proof (Z.mul_div_le q 10 ltac:(lia)) as Hd.
      pose proof (Z.mod_pos_bound q 10 ltac:(lia)) as Hm.
      pose proof (Z.div_mod q 10 ltac:(lia)) as Hdm.
      split; [lia|]. split; lia.
Qed.

Lemma shift_count_spec (fuel : nat) (n d : Z) :
  0 < n < d -> d < n * 2 ^ Z.of_nat fuel ->
  1 <= Fp.shift_count fuel n d /\
  n * 10 ^ (Fp.shift_count fuel n d - 1) < d <= n * 10 ^ (Fp.shift_count fuel n d).
Proof.
  revert n. induction fuel as [|fuel IH]; intros n Hn Hb.
  - change (2 ^ Z.of_nat 0) with 1 in Hb. lia.
  - cbn [Fp.shift_count].
    destruct (Z.leb_spec d (n * 10)) as [Hle|Hgt].
    + change (10 ^ (1 - 1)) with 1. change (10 ^ 1) with 10. lia.
    + assert (Hb' : d < n * 10 * 2 ^ Z.of_nat fuel).
      { rewrite Nat2Z.inj_succ, Z.pow_succ_r in Hb by lia.
        assert (0 < 2 ^ Z.of_nat fuel) by (apply Z.pow_pos_nonneg; lia).
        nia. }
      destruct (IH (n * 10) ltac:(lia) Hb') as (Hk & Hlo & Hhi).
      set (k := Fp.shift_count fuel (n * 10) d) in *.
      replace (1 + k - 1) with (k - 1 + 1) by lia.
      replace (1 + k) with (k + 1) by lia.
      rewrite !Z.pow_add_r by lia. change (10 ^ 1) with 10.
      split; [lia|]. split; lia.
Qed.

Lemma floor_log10_spec (n d : Z) :
  0 < n -> 0 < d ->
  let x := Fp.floor_log10 n d in
  (0 <= x -> d * 10 ^ x <= n < d * 10 ^ (x + 1)) /\
  (x < 0 -> n * 10 ^ (- x - 1) < d <= n * 10 ^ (- x)).
Proof.
  intros Hn Hd. unfold Fp.floor_log10. cbv zeta.
  destruct (Z.leb_spec d n) as [Hle|Hlt].
  - assert (Hq : 1 <= n / d) by (apply Z.div_le_lower_bound; lia).
    destruct (count_digits_spec (S (Z.to_nat (Z.log2 (n / d)))) (n / d) Hq)
      as (Hk & Hlo & Hhi).
    { pose proof (Z.log2_nonneg (n / d)). lia. }
    set (k := Fp.count_digits _ _) in *.
    split; [intros _ | lia].
    replace (k - 1 + 1) with k by lia.
    pose proof (Z.mul_div_le n d Hd) as H1.
    pose proof (Z.mod_pos_bound n d Hd) as H2.
    pose proof (Z.div_mod n d ltac:(lia)) as H3.
    assert (0 < 10 ^ (k - 1)) by (apply Z.pow_pos_nonneg; lia).
    split; nia.
  - destruct (shift_count_spec (S (Z.to_nat (Z.log2 d))) n d ltac:(lia))
      as (Hk & Hlo & Hhi).
    { assert (Hb : d < 2 ^ (Z.log2 d + 1)) by (apply Z.log2_lt_pow2; lia).
      pose proof (Z.log2_nonneg d).
      replace (Z.of_nat (S (Z.to_nat (Z.log2 d)))) with (Z.log2 d + 1) by lia.
      assert (0 < 2 ^ (Z.log2 d + 1)) by (apply Z.pow_pos_nonneg; lia).
      nia. }
    set (k := Fp.shift_count _ _ _) in *.
    split; [lia | intros _].
    replace (- - k - 1) with (k - 1) by lia.
    replace (- - k) with k by lia.
    split; assumption.
Qed.

(** The two notations agree with the C library on the usual test values:
    ties go to the even digit, the general notation switches to the
    scientific one below 1e-4 and from 10^precision on, and drops the zeros
    that end the fraction. *)
Lemma fmt_examples :
  Fp.fmt_fixed 0 (double_val (Lit.d 25 (-1))) = "2" /\
  Fp.fmt_fixed 0 (double_val (Lit.d 35 (-1))) = "4" /\
  Fp.fmt_fixed 1 (double_val (Lit.d 25 (-2))) = "0.2" /\
  Fp.fmt_fixed 2 (double_val (Lit.d 5 (-3))) = "0.01" /\
  Fp.fmt_fixed 20 (double_val (Lit.d 1 (-1))) = "0.10000000000000000555" /\
  Fp.fmt_general 6 (double_val (Lit.d 1 (-4))) = "0.0001" /\
  Fp.fmt_general 6 (double_val (Lit.d 1 (-5))) = "1e-05" /\
  Fp.fmt_general 6 (double_val (Lit.d 100000 0)) = "100000" /\
  Fp.fmt_general 6 (double_val (Lit.d 1000000 0)) = "1e+06" /\
  Fp.fmt_general 6 (double_val (Lit.d 12345678 0)) = "1.23457e+07" /\
  Fp.fmt_general 6 (double_val (Lit.d 9999995 (-1))) = "1e+06" /\
  Fp.fmt_general 6 (double_val (Lit.d 5 (-324))) = "4.94066e-324" /\
  Fp.fmt_general 17 (double_val (Lit.d 1 (-1))) = "0.10000000000000001" /\
  Fp.fmt_general 6 (double_val (Lit.d (-15) (-1))) = "-1.5" /\
  Fp.fmt_general 6 (double_val (Lit.d 1 400)) = "inf".
Proof. repeat split; vm_compute; reflexivity. Qed.

(** The literals of the two programs denote the values of their formats
    nearest to the decimal numbers written, and the one product of Component B
    that is not exact is the [double] nearest to the exact product. *)
Lemma literals_correctly_rounded :
  Fp.nearest_to Fp.binary32 (float_val (Lit.f 1999 (-2))) 1999 100 = true /\
  Fp.nearest_to Fp.binary64 (double_val (Lit.d 3844005 (-1))) 3844005 10 = true /\
  Fp.nearest_to Fp.extended80
    (long_double_val (Lit.l 314159265358979323846 (-20)))
    314159265358979323846 (10 ^ 20) = true /\
  Fp.nearest_to Fp.binary64 (double_val (Lit.d 314159 (-5))) 314159 100000 = true /\
  Fp.nearest_to Fp.binary64 (double_val (Lit.d 314 (-2))) 314 100 = true /\
  Fp.nearest_to Fp.binary64 (double_val (Lit.d 3937 (-2))) 3937 100 = true /\
  Fp.nearest_to Fp.binary64 (double_val (Lit.d 175 (-2))) 175 100 = true /\
  Fp.nearest_to Fp.binary64 (double_val (Lit.d 688975 (-4))) 688975 10000 = true /\
  Fp.nearest_to Fp.binary64
    (double_val (double_mul (Lit.d 175 (-2)) (Lit.d 3937 (-2))))
    (7881299347898368 * 5540834916549263) (2 ^ 99) = true /\
  Lit.d 175 (-2) = Double (S754_finite false 7881299347898368 (-52)) /\
  Lit.d 3937 (-2) = Double (S754_finite false 5540834916549263 (-47)).
Proof. repeat split; vm_compute; reflexivity. Qed.

(** ** Lines *)

Lemma lines_from_line (l cur : string) :
  Str.no_newline l = true ->
  Str.lines_from cur (l ++ Str.newline) = [cur ++ l].
Proof.
  revert cur. induction l as [|c l IH]; intros cur H.
  - simpl. now rewrite append_nil_r.
  - simpl in H. apply andb_true_iff in H as [Hc Hl].
    simpl. destruct (Ascii.eqb c "010"%char); [discriminate|].
    rewrite IH by exact Hl.
    now rewrite append_assoc.
Qed.

(** A text that ends with a newline, the line [l] and a newline has [l] as
    its last line. *)
Lemma lines_from_ends_with (a l cur : string) :
  Str.no_newline l = true ->
  exists X, Str.lines_from cur (a ++ Str.newline ++ l ++ Str.newline) = (X ++ [l])%list.
Proof.
  intros Hl. revert cur. induction a as [|c a IH]; intros cur.
  - exists [cur]. cbn [String.append Str.newline Str.lines_from].
    change (Ascii.eqb "010" "010") with true. cbv iota.
    rewrite (lines_from_line l "" Hl). reflexivity.
  - cbn [String.append Str.lines_from].
    destruct (Ascii.eqb c "010"%char).
    + destruct (IH "") as [X HX]. exists (cur :: X). now rewrite HX.
    + apply IH.
Qed.

Lemma last_line_ends_with (a l : string) :
  Str.no_newline l = true ->
  last_line (a ++ Str.newline ++ l ++ Str.newline) = l.
Proof.
  intros Hl. unfold last_line, Str.lines.
  destruct (lines_from_ends_with a l "" Hl) as [X HX].
  rewrite HX. apply last_last.
Qed.

(** The lines of a text made of newline-free lines are those lines. *)
Lemma lines_unlines (L : list string) :
  forallb Str.no_newline L = true -> Str.lines (Str.unlines L) = L.
Proof.
  unfold Str.lines.
  induction L as [|l L IH]; intros H; [reflexivity|].
  simpl in H. apply andb_true_iff in H as [Hl HL].
  change (Str.unlines (l :: L)) with ((l ++ Str.newline) ++ Str.unlines L).
  assert (E : forall a cur rest,
             Str.no_newline a = true ->
             Str.lines_from cur ((a ++ Str.newline) ++ rest) =
               (cur ++ a) :: Str.lines_from "" rest).
  { induction a as [|c a IHa]; intros cur rest Ha.
    - simpl. now rewrite append_nil_r.
    - simpl in Ha. apply andb_true_iff in Ha as [Hc Ha].
      simpl. destruct (Ascii.eqb c "010"%char); [discriminate|].
      rewrite IHa by exact Ha. now rewrite append_assoc. }
  rewrite E by exact Hl. simpl. now rewrite IH.
Qed.

Lemma unlines_app (l1 l2 : list string) :
  Str.unlines (l1 ++ l2) = Str.unlines l1 ++ Str.unlines l2.
Proof. unfold Str.unlines. now rewrite map_app, flatten_app. Qed.

(** ** No rendering breaks a line *)

Lemma no_newline_app (a b : string) :
  Str.no_newline (a ++ b) = Str.no_newline a && Str.no_newline b.
Proof.
  induction a as [|c a IH]; simpl; [reflexivity|].
  now rewrite IH, andb_assoc.
Qed.

Lemma uint_no_newline (d : Decimal.uint) :
  Str.no_newline (NilEmpty.string_of_uint d) = true.
Proof. induction d; simpl; auto. Qed.

Lemma dec_no_newline (z : Z) : Str.no_newline (Render.dec z) = true.
Proof.
  unfold Render.dec, NilZero.string_of_int.
  destruct (Z.to_int z) as [d|d]; simpl;
    unfold NilZero.string_of_uint; destruct d; try reflexivity; simpl;
    apply uint_no_newline.
Qed.

Lemma all_digits_no_newline (s : string) :
  Str.all_digits s = true -> Str.no_newline s = true.
Proof.
  induction s as [|c s IH]; simpl; intros H; [reflexivity|].
  apply andb_true_iff in H as [Hc Hs]. rewrite IH by exact Hs.
  rewrite andb_true_r.
  destruct (Ascii.eqb_spec c "010"%char) as [->|_]; [discriminate Hc | reflexivity].
Qed.

Lemma digits_no_newline (k : nat) (n : Z) : Str.no_newline (Render.digits k n) = true.
Proof. apply all_digits_no_newline, digits_all_digits. Qed.

Lemma strip_zeros_no_newline (s : string) :
  Str.no_newline s = true -> Str.no_newline (Fp.strip_zeros s) = true.
Proof.
  induction s as [|c s IH]; simpl; intros H; [reflexivity|].
  apply andb_true_iff in H as [Hc Hs]. specialize (IH Hs).
  destruct (Fp.strip_zeros s) as [|c' r].
  - destruct (Ascii.eqb c "0"); simpl; [reflexivity | now rewrite Hc].
  - simpl in *. now rewrite Hc, IH.
Qed.

Lemma fraction_text_no_newline (s : string) :
  Str.no_newline s = true -> Str.no_newline (Fp.fraction_text s) = true.
Proof.
  intros H. unfold Fp.fraction_text.
  pose proof (strip_zeros_no_newline s H) as Hs.
  destruct (Fp.strip_zeros s); [reflexivity | exact Hs].
Qed.

Lemma sign_text_no_newline (s : bool) : Str.no_newline (Fp.sign_text s) = true.
Proof. destruct s; reflexivity. Qed.

Lemma fixed_text_no_newline (n d p : Z) : Str.no_newline (Fp.fixed_text n d p) = true.
Proof.
  unfold Fp.fixed_text. rewrite no_newline_app, dec_no_newline.
  destruct (p =? 0); [reflexivity|].
  rewrite no_newline_app, digits_no_newline. reflexivity.
Qed.

Lemma exponent_text_no_newline (x : Z) : Str.no_newline (Fp.exponent_text x) = true.
Proof.
  unfold Fp.exponent_text. rewrite !no_newline_app, dec_no_newline.
  destruct (x <? 0); destruct (Z.abs x <? 10); reflexivity.
Qed.

Lemma general_text_no_newline (n d p : Z) : Str.no_newline (Fp.general_text n d p) = true.
Proof.
  unfold Fp.general_text. cbv zeta.
  match goal with |- context [if ?c then _ else _] => destruct c end.
  - rewrite !no_newline_app, dec_no_newline, exponent_text_no_newline.
    rewrite fraction_text_no_newline by apply digits_no_newline. reflexivity.
  - rewrite !no_newline_app, dec_no_newline.
    rewrite fraction_text_no_newline by apply digits_no_newline. reflexivity.
Qed.

Lemma fmt_float_no_newline (fl : fmtflags) (x : spec_float) :
  Str.no_newline (fmt_float fl x) = true.
Proof.
  unfold fmt_float, Fp.fmt_fixed, Fp.fmt_general. cbv zeta.
  destruct (fixed_flag fl); destruct x as [s|s| |s m e]; try reflexivity;
    try (destruct s; reflexivity).
  - now rewrite no_newline_app, sign_text_no_newline, fixed_text_no_newline.
  - destruct (Fp.num_den m e) as [n d].
    now rewrite no_newline_app, sign_text_no_newline, fixed_text_no_newline.
  - destruct (Fp.num_den m e) as [n d].
    now rewrite no_newline_app, sign_text_no_newline, general_text_no_newline.
Qed.

(** ** Machine arithmetic *)

Lemma wrap_exact (x : Z) : CInt.in_int x -> CInt.wrap 32 x = x.
Proof.
  unfold CInt.in_int, CInt.int_min, CInt.int_max, CInt.wrap. intros H.
  change (2 ^ (32 - 1)) with 2147483648 in *.
  change (2 ^ 31) with 2147483648 in *.
  change (2 ^ 32) with 4294967296.
  rewrite Z.mod_small by lia. lia.
Qed.

Lemma wrap_in_int (x : Z) : CInt.in_int (CInt.wrap 32 x).
Proof.
  unfold CInt.in_int, CInt.int_min, CInt.int_max, CInt.wrap.
  change (2 ^ (32 - 1)) with 2147483648.
  change (2 ^ 31) with 2147483648.
  change (2 ^ 32) with 4294967296.
  pose proof (Z.mod_pos_bound (x + 2147483648) 4294967296 ltac:(lia)). lia.
Qed.

(** Without overflow the [int] operations are the mathematical ones. *)
Lemma int_sub_exact (a b : Z) : CInt.in_int (a - b) -> CInt.int_sub a b = a - b.
Proof. apply wrap_exact. Qed.

Lemma int_mul_exact (a b : Z) : CInt.in_int (a * b) -> CInt.int_mul a b = a * b.
Proof. apply wrap_exact. Qed.

(** ** Component B as a text *)

Lemma exercise1_appends (v : Exercise1.info) (os : ostream) :
  appends os (final (Exercise1.main_of v os))
    (Str.unlines (exercise1_lines v os)) (flags os).
Proof.
  unfold Exercise1.main_of. cbn [final].
  eapply appends_eq.
  - appends_solve.
  - unfold exercise1_lines, exercise1_head, exercise1_record,
      exercise1_calculations, exercise1_closing.
    cbn [app]. text_norm. reflexivity.
  - reflexivity.
Qed.

Lemma exercise1_stdout (v : Exercise1.info) (os : ostream) :
  stdout (Exercise1.main_of v os) = buf os ++ Str.unlines (exercise1_lines v os).
Proof. exact (proj1 (exercise1_appends v os)). Qed.

Lemma exercise1_stdout_init (v : Exercise1.info) :
  stdout (Exercise1.main_of v cout_init) = Str.unlines (exercise1_lines v cout_init).
Proof. now rewrite exercise1_stdout. Qed.

Lemma all_beforeb_sound (P Q : string -> bool) (L : list string) :
  all_beforeb P Q L = true -> all_before P Q L.
Proof.
  unfold all_beforeb, all_before.
  intros H i j a b Hi Pa Hj Qb.
  rewrite forallb_forall in H.
  assert (Hli : (i < List.length L)%nat)
    by (apply nth_error_Some; congruence).
  assert (Hlj : (j < List.length L)%nat)
    by (apply nth_error_Some; congruence).
  specialize (H i). rewrite in_seq in H.
  assert (Hi' : (0 <= i < 0 + List.length L)%nat) by lia.
  specialize (H Hi'). rewrite forallb_forall in H.
  specialize (H j). rewrite in_seq in H.
  assert (Hj' : (0 <= j < 0 + List.length L)%nat) by lia.
  specialize (H Hj').
  rewrite Hi, Hj, Pa, Qb in H. simpl in H.
  now apply Nat.ltb_lt.
Qed.

Lemma exercise1_lines_no_newline (v : Exercise1.info) (os : ostream) :
  one_line_fields v = true ->
  forallb Str.no_newline (exercise1_lines v os) = true.
Proof.
  unfold one_line_fields. intros H.
  apply andb_true_iff in H as [H Hc].
  apply andb_true_iff in H as [H Hh].
  apply andb_true_iff in H as [Hn Hg].
  unfold exercise1_lines, exercise1_head, exercise1_record,
    exercise1_calculations, exercise1_closing.
  cbn [app forallb].
  rewrite !no_newline_app, !fmt_float_no_newline, !dec_no_newline, Hn, Hh, Hc.
  cbn [Str.no_newline]. rewrite Hg.
  destruct (Exercise1.isLearning v); vm_compute; reflexivity.
Qed.

(** For such a record, on a stream nothing was written to, the lines of the
    output are the lines of [exercise1_lines]. *)
Lemma exercise1_lines_exact (v : Exercise1.info) (os : ostream) :
  one_line_fields v = true -> buf os = "" ->
  Str.lines (stdout (Exercise1.main_of v os)) = exercise1_lines v os.
Proof.
  intros H Hos. rewrite exercise1_stdout, Hos. cbn [String.append].
  apply lines_unlines. now apply exercise1_lines_no_newline.
Qed.

(** ** Component B: the derived values and the order of the lines *)

(** C1, as the code has it.  With the placeholder values of the file
    ([name = "Your Name Here"], [age = 0], [height = 0.0]) the derived values
    are [birthYear = 2025], [heightInCm = 0.0], days lived [0] and height in
    inches [0.0], the name has 14 characters, and the lines that show them
    read as below: the default stream format prints the [double] zero
    as [0]. *)
Theorem placeholders_derived_values :
  let v := Exercise1.placeholders in
  let L := Str.lines (stdout (Exercise1.main cout_init)) in
  CInt.int_sub 2025 (Exercise1.age v) = 2025 /\
  double_mul (Exercise1.height v) (double_of_int 100) = Double (S754_zero false) /\
  CInt.int_mul (Exercise1.age v) 365 = 0 /\
  double_mul (Exercise1.height v) (Lit.d 3937 (-2)) = Double (S754_zero false) /\
  Str.length (Exercise1.name v) = 14 /\
  nth_error L 6 = Some "Approximate birth year: 2025" /\
  nth_error L 7 = Some "Height: 0m (0cm)" /\
  nth_error L 14 = Some "Days lived (approximately): 0 days" /\
  nth_error L 15 = Some "Height in inches (approximately): 0 inches" /\
  nth_error L 16 = Some "Name length: 14 characters".
Proof.
  cbv zeta. repeat split; vm_compute; reflexivity.
Qed.

(** C1 as stated fails: the name of the file as it stands does not have 15
    characters, and no line of the output says so. *)
Lemma placeholders_name_length_not_15 :
  ~ (let v := Exercise1.placeholders in
     CInt.int_sub 2025 (Exercise1.age v) = 2025 /\
     double_mul (Exercise1.height v) (double_of_int 100) = Double (S754_zero false) /\
     CInt.int_mul (Exercise1.age v) 365 = 0 /\
     double_mul (Exercise1.height v) (Lit.d 3937 (-2)) = Double (S754_zero false) /\
     Str.length (Exercise1.name v) = 15 /\
     In "Name length: 15 characters" (Str.lines (stdout (Exercise1.main cout_init)))).
Proof.
  cbv zeta. intros (_ & _ & _ & _ & H & _).
  vm_compute in H. discriminate H.
Qed.

(** C4 as stated fails: with [age = 30] and [height = 1.75] the height in
    inches is not exactly 68.8975.  39.37 is no [double]; the product
    computed is the [double] 4848230551980605 * 2^-46, a little below
    68.8975. *)
Lemma inches_30_175_not_exact :
  ~ (let v := Exercise1.Info "Your Name Here" 30 (Lit.d 175 (-2)) "A" true
                "Your favorite hobby" "Your Country" in
     CInt.int_sub 2025 (Exercise1.age v) = 1995 /\
     Fp.equals_fraction
       (double_val (double_mul (Exercise1.height v) (double_of_int 100))) 175 1 = true /\
     CInt.int_mul (Exercise1.age v) 365 = 10950 /\
     Fp.equals_fraction
       (double_val (double_mul (Exercise1.height v) (Lit.d 3937 (-2))))
       688975 10000 = true).
Proof.
  cbv zeta. intros (_ & _ & _ & H).
  vm_compute in H. discriminate H.
Qed.

(** C4, as the code has it.  With [age = 30] and [height = 1.75], whatever
    the other fields: the birth year is 1995, the height in centimetres is
    the [double] 175 exactly, the days lived are 10950, the height in inches
    is not exactly 68.8975 but the [double] nearest to it (the one the
    literal [68.8975] denotes), and the lines of the output show 1995, 175,
    10950 and 68.8975. *)
Theorem derived_values_30_175 :
  forall v : Exercise1.info,
    one_line_fields v = true ->
    Exercise1.age v = 30 ->
    Exercise1.height v = Lit.d 175 (-2) ->
    let L := Str.lines (stdout (Exercise1.main_of v cout_init)) in
    CInt.int_sub 2025 (Exercise1.age v) = 1995 /\
    double_mul (Exercise1.height v) (double_of_int 100) = Lit.d 175 0 /\
    CInt.int_mul (Exercise1.age v) 365 = 10950 /\
    double_mul (Exercise1.height v) (Lit.d 3937 (-2)) = Lit.d 688975 (-4) /\
    Fp.equals_fraction
      (double_val (double_mul (Exercise1.height v) (double_of_int 100))) 175 1 = true /\
    Fp.nearest_to Fp.binary64
      (double_val (double_mul (Exercise1.height v) (Lit.d 3937 (-2)))) 688975 10000 = true /\
    Fp.equals_fraction
      (double_val (double_mul (Exercise1.height v) (Lit.d 3937 (-2)))) 688975 10000 = false /\
    double_mul (Exercise1.height v) (Lit.d 3937 (-2)) =
      Double (S754_finite false 4848230551980605 (-46)) /\
    nth_error L 6 = Some "Approximate birth year: 1995" /\
    nth_error L 7 = Some "Height: 1.75m (175cm)" /\
    nth_error L 14 = Some "Days lived (approximately): 10950 days" /\
    nth_error L 15 = Some "Height in inches (approximately): 68.8975 inches".
Proof.
  intros v Hv Hage Hheight L. unfold L.
  rewrite (exercise1_lines_exact v cout_init Hv eq_refl).
  unfold exercise1_lines, exercise1_record, exercise1_calculations.
  cbn [app exercise1_head nth_error].
  rewrite Hage, Hheight.
  do 8 (split; [vm_compute; reflexivity|]).
  repeat split; vm_compute; reflexivity.
Qed.

Lemma derived_values_30_175_witness :
  let v := Exercise1.Info "Ada" 30 (Lit.d 175 (-2)) "B" false "chess" "Norway" in
  nth_error (Str.lines (stdout (Exercise1.main_of v cout_init))) 15 =
    Some "Height in inches (approximately): 68.8975 inches".
Proof.
  cbv zeta.
  exact (proj2 (proj2 (proj2 (proj2 (proj2 (proj2 (proj2 (proj2 (proj2 (proj2 (proj2
    (derived_values_30_175
       (Exercise1.Info "Ada" 30 (Lit.d 175 (-2)) "B" false "chess" "Norway")
       eq_refl eq_refl eq_refl)))))))))))).
Defined.



(** C2 as stated fails: in the output of the file as it stands the birth
    year, a derived metric, is printed before the grade, a line of the
    personal record. *)
Lemma metric_line_inside_record :
  ~ (let L := Str.lines (stdout (Exercise1.main cout_init)) in
     all_before is_record_line is_metric_line L /\
     all_before is_metric_line is_name_length_line L /\
     all_before is_record_line is_name_length_line L).
Proof.
  cbv zeta. intros (H & _).
  specialize (H 8%nat 6%nat "Favorite grade: A" "Approximate birth year: 2025").
  assert (Hlt : (8 < 6)%nat)
    by (apply H; vm_compute; reflexivity).
  lia.
Qed.

(** C2, as the code has it.  For every record the lines of the output are,
    in this order: the heading lines; the personal record, with the birth
    year directly after the age and the height in centimetres on the height
    line; the calculations heading; the days lived, the height in inches, and
    last of these the length of the name; the closing lines.  So the days
    lived and the height in inches come after every line of the personal
    record, and the name length after both. *)
Theorem record_then_calculations_then_name_length :
  forall v : Exercise1.info,
    one_line_fields v = true ->
    let L := Str.lines (stdout (Exercise1.main_of v cout_init)) in
    List.length L = 19%nat /\
    nth_error L 4 = Some ("Name: " ++ Exercise1.name v) /\
    nth_error L 5 = Some ("Age: " ++ Render.dec (Exercise1.age v) ++ " years old") /\
    nth_error L 6 =
      Some ("Approximate birth year: " ++ Render.dec (CInt.int_sub 2025 (Exercise1.age v))) /\
    nth_error L 7 =
      Some ("Height: " ++ Fp.fmt_general 6 (double_val (Exercise1.height v)) ++ "m (" ++
            Fp.fmt_general 6
              (double_val (double_mul (Exercise1.height v) (double_of_int 100))) ++ "cm)") /\
    nth_error L 8 = Some ("Favorite grade: " ++ String (Exercise1.grade v) "") /\
    nth_error L 9 =
      Some ("Currently learning C++: " ++ (if Exercise1.isLearning v then "Yes!" else "No")) /\
    nth_error L 10 = Some ("Favorite hobby: " ++ Exercise1.hobby v) /\
    nth_error L 11 = Some ("Country: " ++ Exercise1.COUNTRY v) /\
    nth_error L 14 =
      Some ("Days lived (approximately): " ++
            Render.dec (CInt.int_mul (Exercise1.age v) 365) ++ " days") /\
    nth_error L 15 =
      Some ("Height in inches (approximately): " ++
            Fp.fmt_general 6
              (double_val (double_mul (Exercise1.height v) (Lit.d 3937 (-2)))) ++ " inches") /\
    nth_error L 16 =
      Some ("Name length: " ++ Render.dec (Str.length (Exercise1.name v)) ++ " characters") /\
    all_before is_record_line is_calculation_line L /\
    all_before is_calculation_line is_name_length_line L /\
    all_before is_record_line is_name_length_line L.
Proof.
  intros v Hv L. unfold L.
  rewrite (exercise1_lines_exact v cout_init Hv eq_refl).
  unfold exercise1_lines, exercise1_record, exercise1_calculations.
  cbn [app exercise1_head nth_error List.length].
  change (fmt_float (flags cout_init)) with (Fp.fmt_general 6).
  do 12 (split; [reflexivity|]).
  split; [|split]; apply all_beforeb_sound;
    destruct (Exercise1.isLearning v); vm_compute; reflexivity.
Qed.

Lemma record_then_calculations_then_name_length_witness :
  let L := Str.lines (stdout (Exercise1.main cout_init)) in
  nth_error L 6 = Some ("Approximate birth year: " ++ Render.dec (CInt.int_sub 2025 0)) /\
  all_before is_record_line is_calculation_line L.
Proof.
  cbv zeta.
  pose proof (record_then_calculations_then_name_length Exercise1.placeholders eq_refl) as H.
  cbv zeta in H.
  destruct H as (_ & _ & _ & H6 & _ & _ & _ & _ & _ & _ & _ & _ & Hb & _).
  split; [exact H6 | exact Hb].
Defined.

(** C9.  The flag is printed as [Yes!] when it is set and [No] when it is
    not, whether or not [std::boolalpha] is set on the stream; and for every
    record the output is the 19 lines listed, each a fixed label around the
    text of a value, of which the flag line is the only one chosen by a test
    on the data. *)
Theorem learning_flag_text :
  forall (v : Exercise1.info) (os : ostream),
    one_line_fields v = true ->
    buf os = "" ->
    let L := Str.lines (stdout (Exercise1.main_of v os)) in
    L = [ "=== Exercise 1: Personal Information Program ===";
          "Fill in your own information by modifying the variables below:";
          "";
          "📋 Personal Information:";
          "Name: " ++ Exercise1.name v;
          "Age: " ++ Render.dec (Exercise1.age v) ++ " years old";
          "Approximate birth year: " ++
            Render.dec (CInt.int_sub 2025 (Exercise1.age v));
          "Height: " ++ fmt_float (flags os) (double_val (Exercise1.height v)) ++
            "m (" ++
            fmt_float (flags os)
              (double_val (double_mul (Exercise1.height v) (double_of_int 100))) ++
            "cm)";
          "Favorite grade: " ++ String (Exercise1.grade v) "";
          "Currently learning C++: " ++
            (if Exercise1.isLearning v then "Yes!" else "No");
          "Favorite hobby: " ++ Exercise1.hobby v;
          "Country: " ++ Exercise1.COUNTRY v;
          "";
          "🔢 Fun Calculations:";
          "Days lived (approximately): " ++
            Render.dec (CInt.int_mul (Exercise1.age v) 365) ++ " days";
          "Height in inches (approximately): " ++
            fmt_float (flags os)
              (double_val (double_mul (Exercise1.height v) (Lit.d 3937 (-2)))) ++
            " inches";
          "Name length: " ++ Render.dec (Str.length (Exercise1.name v)) ++
            " characters";
          "";
          "✅ Exercise 1 complete! Great job practicing with variables!" ] /\
    List.length L = 19%nat /\
    nth_error L 9 =
      Some (if Exercise1.isLearning v
            then "Currently learning C++: Yes!"
            else "Currently learning C++: No").
Proof.
  intros v os Hv Hos L. unfold L.
  rewrite (exercise1_lines_exact v os Hv Hos).
  split; [reflexivity|].
  split; [reflexivity|].
  unfold exercise1_lines, exercise1_record. cbn [app exercise1_head nth_error].
  destruct (Exercise1.isLearning v); reflexivity.
Qed.

Lemma learning_flag_text_witness :
  let os := cout_init << boolalpha in
  nth_error (Str.lines (stdout (Exercise1.main_of Exercise1.placeholders os))) 9 =
    Some "Currently learning C++: Yes!".
Proof.
  cbv zeta.
  exact (proj2 (proj2 (learning_flag_text Exercise1.placeholders
                         (cout_init << boolalpha) eq_refl eq_refl))).
Defined.

(** ** Runs: termination, exit status *)

Lemma runs_exec (p : program) (r : outcome) : runs p r <-> r = exec p.
Proof.
  split.
  - intros H. destruct H; reflexivity.
  - intros ->. destruct p; constructor.
Qed.

Lemma lesson1_last_line : last_line (stdout (Lesson1.main cout_init)) = lesson1_closing.
Proof. vm_compute. reflexivity. Qed.

Lemma exercise1_last_line (v : Exercise1.info) :
  last_line (stdout (Exercise1.main_of v cout_init)) = exercise1_closing.
Proof.
  rewrite exercise1_stdout_init. unfold exercise1_lines.
  rewrite !app_assoc. rewrite unlines_app.
  change (Str.unlines [""; exercise1_closing])
    with (Str.newline ++ exercise1_closing ++ Str.newline).
  apply last_line_ends_with. vm_compute. reflexivity.
Qed.

(** C8.  Every component, whatever values it is built with, has a run; and
    every run returns the status 0 and ends its output with the closing line
    of the component. *)
Theorem runs_end_with_closing_line_and_success :
  forall p : program,
    (exists r, runs p r) /\
    (forall r, runs p r ->
       status r = 0 /\ last_line (stdout r) = closing_line p).
Proof.
  intros p. split.
  - exists (exec p). now apply runs_exec.
  - intros r H. destruct H.
    + split; [reflexivity | apply lesson1_last_line].
    + split; [reflexivity | apply exercise1_last_line].
Qed.

Lemma runs_end_with_closing_line_and_success_witness :
  runs lesson1 (Lesson1.main cout_init) /\
  status (Lesson1.main cout_init) = 0 /\
  last_line (stdout (Lesson1.main cout_init)) = lesson1_closing.
Proof.
  split; [exact runs_lesson1|].
  exact (proj2 (runs_end_with_closing_line_and_success lesson1) _ runs_lesson1).
Defined.

(** ** Component A as a text *)

(** Whatever the formatting state it starts from, Component A appends the
    same text: every value whose text depends on the flags is written after
    the manipulator that sets them. *)
Lemma lesson1_appends (os : ostream) :
  appends os (final (Lesson1.main os))
    (stdout (Lesson1.main cout_init))
    (set_boolalpha (set_precision 10 (set_precision 2 (set_fixed (flags os))))).
Proof.
  unfold Lesson1.main, Lesson1.integer_types, Lesson1.floating_point_types,
    Lesson1.character_type, Lesson1.boolean_type, Lesson1.string_type,
    Lesson1.string_type_of, Lesson1.constants, Lesson1.auto_keyword,
    Lesson1.variable_scope.
  cbn [final].
  eapply appends_eq.
  - appends_solve.
  - text_norm. unfold fmt_float, fmt_bool.
    cbn [fixed_flag precision boolalpha_flag set_boolalpha set_precision set_fixed].
    vm_compute. reflexivity.
  - reflexivity.
Qed.

(** The floating-point section sets the fixed notation and the precision 2
    before it writes [price] and [distance], and the precision 10 before it
    writes [precise]. *)
Lemma floating_point_types_appends (os : ostream) :
  appends os (Lesson1.floating_point_types os)
    (Str.unlines
       [ "2. FLOATING POINT TYPES:";
         "float price = $" ++
           Fp.fmt_fixed 2 (Fp.convert Fp.binary64 (float_val (Lit.f 1999 (-2))));
         "double distance = " ++
           Fp.fmt_fixed 2 (double_val (Lit.d 3844005 (-1))) ++ " km";
         "long double precise = " ++
           Fp.fmt_fixed 10 (long_double_val (Lit.l 314159265358979323846 (-20)));
         "" ])
    (set_precision 10 (set_precision 2 (set_fixed (flags os)))).
Proof.
  unfold Lesson1.floating_point_types.
  eapply appends_eq.
  - appends_solve.
  - text_norm. unfold fmt_float.
    cbn [fixed_flag precision set_precision set_fixed].
    repeat rewrite append_assoc. reflexivity.
  - reflexivity.
Qed.

(** ** Component A: the scope demonstration *)

(** C3 as stated fails: no line written before the block is entered shows
    the outer value; its first line is written inside the block. *)
Lemma outer_value_not_printed_before_block :
  ~ (let L := Str.lines (stdout (Lesson1.main cout_init)) in
     let T := Trace.lines (final (Lesson1.main cout_init)) in
     (exists i j,
        Str.index_of "Inside block - localVar: 200" L = Some i /\
        Str.index_of "Outside block - globalVar: 100" L = Some j /\
        (i < j)%nat) /\
     existsb (Str.contains "localVar") (Trace.after_block T) = false /\
     existsb (Str.contains "globalVar") (Trace.before_block T) = true /\
     existsb (Str.contains "globalVar") (Trace.after_block T) = true).
Proof.
  cbv zeta. intros (_ & _ & H & _).
  vm_compute in H. discriminate H.
Qed.

(** C3, as the code has it.  The line of the block-local value comes
    strictly before the line of the outer value that follows the block;
    nothing written after the block shows the block-local variable or its
    value; the outer value is printed inside the block, before the line of
    the block-local value, and again after the block, and not before the
    block. *)
Theorem scope_demonstration :
  let L := Str.lines (stdout (Lesson1.main cout_init)) in
  let T := Trace.lines (final (Lesson1.main cout_init)) in
  Str.index_of "Inside block - localVar: 200" L = Some 38%nat /\
  Str.index_of "Outside block - globalVar: 100" L = Some 39%nat /\
  map snd T = L /\
  Trace.at_depth 1 T = [37; 38]%nat /\
  Trace.in_block T =
    [ "Inside block - globalVar: 100"; "Inside block - localVar: 200" ] /\
  Trace.after_block T =
    [ "Outside block - globalVar: 100"; ""; lesson1_closing ] /\
  existsb (Str.contains "localVar") (Trace.after_block T) = false /\
  existsb (Str.contains "200") (Trace.after_block T) = false /\
  existsb (Str.contains "globalVar") (Trace.before_block T) = false /\
  List.length (Trace.before_block T) = 37%nat.
Proof.
  cbv zeta. repeat split; vm_compute; reflexivity.
Qed.

(** ** Component A: sections, samples, precision *)

(** C6 as stated fails: the outer value of the scope demonstration has two
    labelled lines, not one. *)
Lemma globalVar_has_two_lines :
  ~ (let L := Str.lines (stdout (Lesson1.main cout_init)) in
     Forall (fun xk => List.length (labelled (fst xk) L) = 1%nat) lesson1_samples /\
     sections_in_order L /\
     Forall (fun xk => Forall (fun i => section_of L i = snd xk) (labelled (fst xk) L))
       lesson1_samples /\
     option_map Str.fraction_digits (nth_error L 9) = Some 2%nat /\
     option_map Str.fraction_digits (nth_error L 10) = Some 2%nat /\
     option_map Str.fraction_digits (nth_error L 11) = Some 10%nat).
Proof.
  cbv zeta. intros (H & _).
  rewrite Forall_forall in H.
  specialize (H ("globalVar", 8%nat)).
  assert (E : List.length
                (labelled "globalVar" (Str.lines (stdout (Lesson1.main cout_init)))) = 2%nat)
    by (vm_compute; reflexivity).
  cbn [fst] in H. rewrite E in H.
  assert (H' : 2%nat = 1%nat) by (apply H; unfold lesson1_samples; simpl; tauto).
  discriminate H'.
Qed.

(** C6, as the code has it.  Every declared sample value has exactly one
    labelled line, except the outer value [globalVar] of the scope
    demonstration, which has two; every such line lies in the section that
    declares the value; the eight section headings occur once each, in the
    order integers, floating-point, character, boolean, string, constants,
    inferred types, scope; and in the floating-point section [price] and
    [distance] are written with 2 decimal places and [precise] with 10. *)
Theorem one_line_per_sample_in_section_order :
  let L := Str.lines (stdout (Lesson1.main cout_init)) in
  Forall (fun xk =>
            List.length (labelled (fst xk) L) =
              (if String.eqb (fst xk) "globalVar" then 2 else 1)%nat)
    lesson1_samples /\
  labelled "globalVar" L = [37; 39]%nat /\
  sections_in_order L /\
  Forall (fun xk => Forall (fun i => section_of L i = snd xk) (labelled (fst xk) L))
    lesson1_samples /\
  nth_error L 9 =
    Some ("float price = $" ++
          Fp.fmt_fixed 2 (Fp.convert Fp.binary64 (float_val (Lit.f 1999 (-2))))) /\
  nth_error L 10 =
    Some ("double distance = " ++
          Fp.fmt_fixed 2 (double_val (Lit.d 3844005 (-1))) ++ " km") /\
  nth_error L 11 =
    Some ("long double precise = " ++
          Fp.fmt_fixed 10 (long_double_val (Lit.l 314159265358979323846 (-20)))) /\
  nth_error L 9 = Some "float price = $19.99" /\
  nth_error L 10 = Some "double distance = 384400.50 km" /\
  nth_error L 11 = Some "long double precise = 3.1415926536" /\
  option_map Str.fraction_digits (nth_error L 9) = Some 2%nat /\
  option_map Str.fraction_digits (nth_error L 10) = Some 2%nat /\
  option_map Str.fraction_digits (nth_error L 11) = Some 10%nat.
Proof.
  cbv zeta.
  split; [repeat constructor; vm_compute; reflexivity|].
  split; [vm_compute; reflexivity|].
  split; [split; [vm_compute; reflexivity | repeat constructor; vm_compute; reflexivity]|].
  split.
  { assert (E : forall xk, In xk lesson1_samples ->
                  forallb (fun i => Nat.eqb
                             (section_of (Str.lines (stdout (Lesson1.main cout_init))) i)
                             (snd xk))
                    (labelled (fst xk) (Str.lines (stdout (Lesson1.main cout_init)))) = true).
    { apply forallb_forall. vm_compute. reflexivity. }
    apply Forall_forall. intros xk Hin.
    apply Forall_forall. intros i Hi.
    specialize (E xk Hin). rewrite forallb_forall in E.
    apply Nat.eqb_eq. now apply E. }
  repeat split; vm_compute; reflexivity.
Qed.

(** ** Component A: the length of the full name *)

(** C10.  The full name is the first name, a space and the last name, so its
    length is the sum of their lengths plus one, and that is the number the
    string section prints; with the literals of the file the line reads
    8 characters. *)
Theorem fullName_length :
  forall firstName lastName : string,
    Lesson1.fullName firstName lastName = firstName ++ " " ++ lastName /\
    Str.length (Lesson1.fullName firstName lastName) =
      Str.length firstName + Str.length lastName + 1 /\
    (forall os : ostream,
       buf (Lesson1.string_type_of firstName lastName os) =
         buf os ++
         Str.unlines
           [ "std::string firstName = " ++ Str.dquote ++ firstName ++ Str.dquote;
             "std::string lastName = " ++ Str.dquote ++ lastName ++ Str.dquote;
             "std::string fullName = " ++ Str.dquote ++ firstName ++ " " ++ lastName
               ++ Str.dquote;
             "String length: " ++
               Render.dec (Str.length firstName + Str.length lastName + 1) ++ " characters";
             "" ]) /\
    nth_error (Str.lines (stdout (Lesson1.main cout_init))) 25 =
      Some "String length: 8 characters".
Proof.
  intros firstName lastName.
  assert (E0 : Lesson1.fullName firstName lastName = firstName ++ " " ++ lastName).
  { unfold Lesson1.fullName, Str.plus. now rewrite append_assoc. }
  assert (E1 : Str.length (Lesson1.fullName firstName lastName) =
               Str.length firstName + Str.length lastName + 1).
  { rewrite E0. unfold Str.length. rewrite !length_append. simpl String.length. lia. }
  split; [exact E0|]. split; [exact E1|]. split.
  - intros os.
    refine (proj1 (_ : appends os _ _ (flags os))).
    unfold Lesson1.string_type_of. rewrite E1, E0.
    eapply appends_eq; [appends_solve | text_norm; reflexivity | reflexivity].
  - vm_compute. reflexivity.
Qed.

(** * Further properties of the code *)

(** ** Component A on a stream that was used before *)

(** The streams of this development are those that differ from the stream
    of a fresh process in the text already written, in the fixed notation,
    the precision and [boolalpha], and in nothing else: the number base,
    [showpos], the scientific notation, the field width and the like are as
    a fresh process has them.  These are the streams a run of either
    program starts from or leaves behind; the statements below that range
    over every [os] range over these, and say nothing of a stream on which
    [std::hex] or [std::showpos] was set. *)

(** X1.  Given such a stream, whatever was written to it and whatever its
    fixed notation, precision and [boolalpha] settings, Component A appends
    to it the very text it writes on a fresh stream, returns 0, leaves the
    block depth as it found it, and leaves the stream in the fixed notation
    with precision 10 and [boolalpha] set. *)
Theorem lesson1_on_any_stream :
  forall os : ostream,
    let r := Lesson1.main os in
    stdout r = buf os ++ stdout (Lesson1.main cout_init) /\
    flags (final r) = lesson1_flags /\
    depth (final r) = depth os /\
    status r = 0.
Proof.
  intros os r. subst r.
  destruct (lesson1_appends os) as [Hb Hf].
  split; [exact Hb|]. split; [rewrite Hf; reflexivity|].
  split; reflexivity.
Qed.

(** X2.  Run a second time on the stream the first run left, Component A
    writes the same text again: the flags the first run changed do not show
    in the second. *)
Theorem lesson1_twice :
  forall os : ostream,
    let T := stdout (Lesson1.main cout_init) in
    stdout (Lesson1.main (final (Lesson1.main os))) = buf os ++ T ++ T.
Proof.
  intros os T. subst T.
  destruct (lesson1_appends os) as [Hb _].
  destruct (lesson1_appends (final (Lesson1.main os))) as [Hb2 _].
  unfold stdout at 1. rewrite Hb2, Hb. apply append_assoc.
Qed.

(** ** Component A: what depends on the formatting state *)

(** X4.  The constants and the inferred-type sections print their [double]
    values under the notation and precision they are entered with and set
    none themselves.  Entered after the floating-point section, whatever the
    fixed notation, precision and [boolalpha] settings that one started
    from, they print 3.1415900000 and 3.1400000000; entered on a fresh
    stream they would print 3.14159 and 3.14. *)
Theorem lesson1_inherited_precision :
  (forall os : ostream,
     appends os (Lesson1.constants os)
       (Str.unlines [ "6. CONSTANTS:";
                      "const double PI = " ++
                        fmt_float (flags os) (double_val (Lit.d 314159 (-5)));
                      "const int DAYS_IN_WEEK = 7"; "" ])
       (flags os) /\
     appends os (Lesson1.auto_keyword os)
       (Str.unlines [ "7. AUTO KEYWORD (Modern C++):";
                      "auto autoInt = 42 (type: int)";
                      "auto autoDouble = " ++
                        fmt_float (flags os) (double_val (Lit.d 314 (-2))) ++
                        " (type: double)";
                      "auto autoString = " ++ Str.dquote ++ "Hello" ++ Str.dquote ++
                        " (type: string)"; "" ])
       (flags os)) /\
  (forall os : ostream,
     let os' := Lesson1.floating_point_types os in
     appends os' (Lesson1.constants os')
       (Str.unlines [ "6. CONSTANTS:"; "const double PI = 3.1415900000";
                      "const int DAYS_IN_WEEK = 7"; "" ])
       (flags os') /\
     appends os' (Lesson1.auto_keyword os')
       (Str.unlines [ "7. AUTO KEYWORD (Modern C++):";
                      "auto autoInt = 42 (type: int)";
                      "auto autoDouble = 3.1400000000 (type: double)";
                      "auto autoString = " ++ Str.dquote ++ "Hello" ++ Str.dquote ++
                        " (type: string)"; "" ])
       (flags os')) /\
  Str.lines (buf (Lesson1.constants cout_init)) =
    [ "6. CONSTANTS:"; "const double PI = 3.14159"; "const int DAYS_IN_WEEK = 7"; "" ] /\
  Str.lines (buf (Lesson1.auto_keyword cout_init)) =
    [ "7. AUTO KEYWORD (Modern C++):"; "auto autoInt = 42 (type: int)";
      "auto autoDouble = 3.14 (type: double)";
      "auto autoString = " ++ Str.dquote ++ "Hello" ++ Str.dquote ++ " (type: string)";
      "" ].
Proof.
  assert (G : forall os : ostream,
     appends os (Lesson1.constants os)
       (Str.unlines [ "6. CONSTANTS:";
                      "const double PI = " ++
                        fmt_float (flags os) (double_val (Lit.d 314159 (-5)));
                      "const int DAYS_IN_WEEK = 7"; "" ])
       (flags os) /\
     appends os (Lesson1.auto_keyword os)
       (Str.unlines [ "7. AUTO KEYWORD (Modern C++):";
                      "auto autoInt = 42 (type: int)";
                      "auto autoDouble = " ++
                        fmt_float (flags os) (double_val (Lit.d 314 (-2))) ++
                        " (type: double)";
                      "auto autoString = " ++ Str.dquote ++ "Hello" ++ Str.dquote ++
                        " (type: string)"; "" ])
       (flags os)).
  { intros os. split.
    - unfold Lesson1.constants.
      eapply appends_eq; [appends_solve | text_norm; reflexivity | reflexivity].
    - unfold Lesson1.auto_keyword.
      eapply appends_eq; [appends_solve | text_norm; reflexivity | reflexivity]. }
  split; [exact G|]. split; [|split; vm_compute; reflexivity].
  intros os os'.
  destruct (G os') as [Hc Ha].
  assert (Hf : flags os' = set_precision 10 (set_precision 2 (set_fixed (flags os))))
    by exact (proj2 (floating_point_types_appends os)).
  split.
  - eapply appends_eq; [exact Hc | | reflexivity].
    rewrite Hf. reflexivity.
  - eapply appends_eq; [exact Ha | | reflexivity].
    rewrite Hf. reflexivity.
Qed.

(** ** Component B: where the [int] arithmetic is exact *)

Lemma wrap_above (x : Z) :
  CInt.int_max < x <= 2 ^ 32 + CInt.int_max -> CInt.wrap 32 x = x - 2 ^ 32.
Proof.
  unfold CInt.int_min, CInt.int_max, CInt.wrap.
  change (2 ^ (32 - 1)) with 2147483648.
  change (2 ^ 31) with 2147483648.
  change (2 ^ 32) with 4294967296.
  intros H.
  replace (x + 2147483648) with (x + 2147483648 - 4294967296 + 1 * 4294967296) by lia.
  rewrite Z.mod_add by lia.
  rewrite Z.mod_small by lia. lia.
Qed.

(** X6.  For an [int] age the birth year is the exact difference
    [2025 - age] precisely when the age is at least -2147481622, which
    covers every age from 0 up; below that the subtraction overflows and the
    value wraps to [2025 - age - 2^32], a negative year. *)
Theorem birth_year_exact_range :
  forall age : Z,
    CInt.in_int age ->
    CInt.in_int (CInt.int_sub 2025 age) /\
    (CInt.int_sub 2025 age = 2025 - age <-> -2147481622 <= age) /\
    (0 <= age -> 2025 - CInt.int_max <= CInt.int_sub 2025 age <= 2025) /\
    (age < -2147481622 -> CInt.int_sub 2025 age = 2025 - age - 2 ^ 32).
Proof.
  intros age Hage.
  assert (Hr : CInt.in_int (CInt.int_sub 2025 age)) by apply wrap_in_int.
  unfold CInt.in_int, CInt.int_min, CInt.int_max in *.
  change (2 ^ 31) with 2147483648 in *.
  assert (Hlow : age < -2147481622 -> CInt.int_sub 2025 age = 2025 - age - 2 ^ 32).
  { intros H. unfold CInt.int_sub. apply wrap_above.
    unfold CInt.int_min, CInt.int_max.
    change (2 ^ 31) with 2147483648. change (2 ^ 32) with 4294967296. lia. }
  assert (Hok : -2147481622 <= age -> CInt.int_sub 2025 age = 2025 - age).
  { intros H. apply int_sub_exact.
    unfold CInt.in_int, CInt.int_min, CInt.int_max.
    change (2 ^ 31) with 2147483648. lia. }
  split; [exact Hr|]. split; [|split].
  - split; [|exact Hok].
    intros E. destruct (Z_lt_le_dec age (-2147481622)) as [Hlt|Hge]; [|exact Hge].
    rewrite (Hlow Hlt) in E. change (2 ^ 32) with 4294967296 in E. lia.
  - intros H0. rewrite Hok by lia. lia.
  - exact Hlow.
Qed.

Lemma birth_year_exact_range_witness :
  CInt.in_int (-2147481623) /\
  CInt.int_sub 2025 (-2147481623) = -2147483648 /\
  CInt.int_sub 2025 (-2147481622) = 2147483647.
Proof.
  assert (H : CInt.in_int (-2147481623)) by (vm_compute; split; discriminate).
  split; [exact H|]. split.
  - rewrite (proj2 (proj2 (proj2 (birth_year_exact_range (-2147481623) H))))
      by (vm_compute; reflexivity).
    reflexivity.
  - reflexivity.
Defined.

(** X7.  For an [int] age the days lived are the exact product [age * 365]
    precisely when the age lies between -5883516 and 5883516; outside this
    range the multiplication overflows, and whatever the age the value
    printed is an [int]. *)
Theorem days_lived_exact_range :
  forall age : Z,
    CInt.in_int age ->
    CInt.in_int (CInt.int_mul age 365) /\
    (CInt.int_mul age 365 = age * 365 <-> -5883516 <= age <= 5883516).
Proof.
  intros age Hage.
  assert (Hr : CInt.in_int (CInt.int_mul age 365)) by apply wrap_in_int.
  split; [exact Hr|]. split.
  - intros E. rewrite E in Hr.
    unfold CInt.in_int, CInt.int_min, CInt.int_max in Hr.
    change (2 ^ 31) with 2147483648 in Hr. lia.
  - intros H. apply int_mul_exact.
    unfold CInt.in_int, CInt.int_min, CInt.int_max.
    change (2 ^ 31) with 2147483648. lia.
Qed.

Lemma days_lived_exact_range_witness :
  CInt.in_int 5883517 /\
  CInt.int_mul 5883516 365 = 2147483340 /\
  CInt.int_mul 5883517 365 = -2147483591 /\
  CInt.int_mul 5883517 365 <> 5883517 * 365.
Proof.
  assert (H : CInt.in_int 5883517) by (vm_compute; split; discriminate).
  split; [exact H|]. split; [reflexivity|]. split; [reflexivity|].
  intros E.
  pose proof (proj1 (proj2 (days_lived_exact_range 5883517 H)) E) as [_ Hb].
  revert Hb. vm_compute. intros Hb. apply Hb. reflexivity.
Defined.

(** ** Component B: heights written with two decimals *)

Lemma upto_In (n : nat) (c : Z) : 0 <= c < Z.of_nat n -> In c (upto n).
Proof.
  intros H. unfold upto. apply in_map_iff.
  exists (Z.to_nat c). split; [lia|]. apply in_seq. lia.
Qed.

Lemma height_line_of (v : Exercise1.info) :
  one_line_fields v = true ->
  nth_error (Str.lines (stdout (Exercise1.main_of v cout_init))) 7 =
    Some ("Height: " ++ render (flags cout_init) (Exercise1.height v) ++ "m (" ++
          render (flags cout_init)
            (double_mul (Exercise1.height v) (double_of_int 100)) ++ "cm)") /\
  nth_error (Str.lines (stdout (Exercise1.main_of v cout_init))) 15 =
    Some ("Height in inches (approximately): " ++
          render (flags cout_init)
            (double_mul (Exercise1.height v) (Lit.d 3937 (-2))) ++ " inches").
Proof.
  intros Hv. rewrite (exercise1_lines_exact v cout_init Hv eq_refl).
  split; reflexivity.
Qed.

(** X8.  For every height from 0.00 to 9.99 written with two decimals, the
    height line shows the height as it was typed (without the zeros that end
    it) and exactly that many centimetres, although the product
    [height * 100] is not always the exact number of centimetres: for 0.07
    it is not 7. *)
Theorem two_decimal_height_line :
  (forall (v : Exercise1.info) (c : Z),
     one_line_fields v = true ->
     0 <= c < 1000 ->
     Exercise1.height v = height_of_cm c ->
     nth_error (Str.lines (stdout (Exercise1.main_of v cout_init))) 7 =
       Some ("Height: " ++ typed_height c ++ "m (" ++ Render.dec c ++ "cm)")) /\
  Fp.equals_fraction
    (double_val (double_mul (height_of_cm 7) (double_of_int 100))) 7 1 = false.
Proof.
  split; [|vm_compute; reflexivity].
  intros v c Hv Hc Hh.
  rewrite (proj1 (height_line_of v Hv)), Hh.
  assert (E : forallb (fun c =>
                String.eqb (render (flags cout_init) (height_of_cm c)) (typed_height c) &&
                String.eqb (render (flags cout_init)
                              (double_mul (height_of_cm c) (double_of_int 100)))
                           (Render.dec c))
                (upto 1000) = true)
    by (vm_compute; reflexivity).
  rewrite forallb_forall in E.
  specialize (E c (upto_In 1000 c ltac:(lia))).
  apply andb_true_iff in E as [E1 E2].
  apply String.eqb_eq in E1, E2. now rewrite E1, E2.
Qed.

Lemma two_decimal_height_line_witness :
  let v := Exercise1.Info "Ada" 30 (Lit.d 170 (-2)) "B" false "chess" "Norway" in
  nth_error (Str.lines (stdout (Exercise1.main_of v cout_init))) 7 =
    Some "Height: 1.7m (170cm)".
Proof.
  cbv zeta.
  exact (proj1 two_decimal_height_line
           (Exercise1.Info "Ada" 30 (Lit.d 170 (-2)) "B" false "chess" "Norway") 170
           eq_refl ltac:(lia) eq_refl).
Defined.

(** X9.  For every height from 0.00 to 2.54 written with two decimals the
    inches line shows the exact product by 39.37.  From 0.01 to 9.99 it shows
    the exact product rounded to six significant digits, unless the height
    ends in 5, where from 2.55 on the exact product lies half-way between
    two such numbers: for 2.55 the line shows 100.393, the exact product
    being 100.3935. *)
Theorem two_decimal_inches_line :
  (forall (v : Exercise1.info) (c : Z),
     one_line_fields v = true ->
     0 <= c <= 254 ->
     Exercise1.height v = height_of_cm c ->
     nth_error (Str.lines (stdout (Exercise1.main_of v cout_init))) 15 =
       Some ("Height in inches (approximately): " ++ exact_inches c ++ " inches")) /\
  (forall (v : Exercise1.info) (c : Z),
     one_line_fields v = true ->
     1 <= c < 1000 ->
     c mod 10 <> 5 ->
     Exercise1.height v = height_of_cm c ->
     nth_error (Str.lines (stdout (Exercise1.main_of v cout_init))) 15 =
       Some ("Height in inches (approximately): " ++
             Fp.general_text (c * 3937) 10000 6 ++ " inches")) /\
  render (flags cout_init) (double_mul (height_of_cm 255) (Lit.d 3937 (-2))) = "100.393" /\
  exact_inches 255 = "100.3935".
Proof.
  split; [|split; [|split; vm_compute; reflexivity]].
  - intros v c Hv Hc Hh.
    rewrite (proj2 (height_line_of v Hv)), Hh.
    assert (E : forallb (fun c =>
                  String.eqb (render (flags cout_init)
                                (double_mul (height_of_cm c) (Lit.d 3937 (-2))))
                             (exact_inches c))
                  (upto 255) = true)
      by (vm_compute; reflexivity).
    rewrite forallb_forall in E.
    specialize (E c (upto_In 255 c ltac:(lia))).
    apply String.eqb_eq in E. now rewrite E.
  - intros v c Hv Hc H5 Hh.
    rewrite (proj2 (height_line_of v Hv)), Hh.
    assert (E : forallb (fun c =>
                  (c =? 0) || (c mod 10 =? 5) ||
                  String.eqb (render (flags cout_init)
                                (double_mul (height_of_cm c) (Lit.d 3937 (-2))))
                             (Fp.general_text (c * 3937) 10000 6))
                  (upto 1000) = true)
      by (vm_compute; reflexivity).
    rewrite forallb_forall in E.
    specialize (E c (upto_In 1000 c ltac:(lia))).
    destruct (Z.eqb_spec c 0) as [E0|_]; [lia|].
    destruct (Z.eqb_spec (c mod 10) 5) as [E5|_]; [contradiction|].
    cbn [orb] in E. apply String.eqb_eq in E. now rewrite E.
Qed.

Lemma two_decimal_inches_line_witness :
  let v := Exercise1.Info "Ada" 30 (Lit.d 254 (-2)) "B" false "chess" "Norway" in
  nth_error (Str.lines (stdout (Exercise1.main_of v cout_init))) 15 =
    Some "Height in inches (approximately): 99.9998 inches".
Proof.
  cbv zeta.
  exact (proj1 two_decimal_inches_line
           (Exercise1.Info "Ada" 30 (Lit.d 254 (-2)) "B" false "chess" "Norway") 254
           eq_refl ltac:(lia) eq_refl).
Defined.

(** ** Component B: fields that hold newlines *)

Lemma count_newlines_app (a b : string) :
  count_newlines (a ++ b) = (count_newlines a + count_newlines b)%nat.
Proof.
  induction a as [|c a IH]; simpl; [reflexivity|].
  destruct (Ascii.eqb c "010"%char); simpl; now rewrite IH.
Qed.

Lemma count_newlines_none (s : string) :
  Str.no_newline s = true -> count_newlines s = O.
Proof.
  induction s as [|c s IH]; simpl; intros H; [reflexivity|].
  apply andb_true_iff in H as [Hc Hs].
  destruct (Ascii.eqb c "010"%char); [discriminate Hc | now apply IH].
Qed.

(** A text that ends with a newline has as many lines as newlines. *)
Lemma lines_from_count (s cur : string) :
  List.length (Str.lines_from cur (s ++ Str.newline)) = S (count_newlines s).
Proof.
  revert cur. induction s as [|c s IH]; intros cur.
  - reflexivity.
  - cbn [String.append Str.lines_from count_newlines].
    destruct (Ascii.eqb c "010"%char).
    + cbn [List.length]. now rewrite IH.
    + apply IH.
Qed.

Lemma count_newlines_unlines (L : list string) :
  count_newlines (Str.unlines L) =
    (list_sum (map count_newlines L) + List.length L)%nat.
Proof.
  induction L as [|l L IH]; [reflexivity|].
  change (Str.unlines (l :: L)) with ((l ++ Str.newline) ++ Str.unlines L).
  rewrite !count_newlines_app, IH.
  change (count_newlines Str.newline) with 1%nat.
  unfold list_sum. cbn [map fold_right List.length]. lia.
Qed.

(** X10.  Whatever the record, the output has 19 lines and one more for each
    newline byte in the name, the grade, the hobby and the country; no other
    value printed can break a line. *)
Theorem exercise1_line_count :
  forall v : Exercise1.info,
    List.length (Str.lines (stdout (Exercise1.main_of v cout_init))) =
      (19 + count_newlines (Exercise1.name v)
          + count_newlines (String (Exercise1.grade v) "")
          + count_newlines (Exercise1.hobby v)
          + count_newlines (Exercise1.COUNTRY v))%nat.
Proof.
  intros v. rewrite exercise1_stdout_init.
  unfold exercise1_lines. rewrite !app_assoc, unlines_app.
  change (Str.unlines [""; exercise1_closing])
    with ((Str.newline ++ exercise1_closing) ++ Str.newline).
  rewrite <- append_assoc.
  unfold Str.lines. rewrite lines_from_count.
  rewrite count_newlines_app, count_newlines_unlines.
  unfold exercise1_head, exercise1_record, exercise1_calculations.
  unfold list_sum. cbn [app map fold_right List.length].
  rewrite !count_newlines_app.
  rewrite !(count_newlines_none (fmt_float _ _)) by apply fmt_float_no_newline.
  rewrite !(count_newlines_none (Render.dec _)) by apply dec_no_newline.
  destruct (Exercise1.isLearning v); cbn [count_newlines Ascii.eqb Bool.eqb];
    cbn; lia.
Qed.

(** ** Component A: the sections that set the flags *)

(** X11.  The floating-point and the boolean sections set the notation,
    the precision and [boolalpha] before they print: whatever these three
    settings were on entry, they write the same text, and they leave the
    fixed notation with precision 10, respectively [boolalpha], set for what
    follows. *)
Theorem lesson1_setting_sections :
  forall os : ostream,
    appends os (Lesson1.floating_point_types os)
      (Str.unlines [ "2. FLOATING POINT TYPES:"; "float price = $19.99";
                     "double distance = 384400.50 km";
                     "long double precise = 3.1415926536"; "" ])
      {| fixed_flag := true; precision := 10;
         boolalpha_flag := boolalpha_flag (flags os) |} /\
    appends os (Lesson1.boolean_type os)
      (Str.unlines [ "4. BOOLEAN TYPE:"; "bool isStudent = true";
                     "bool hasLicense = false"; "" ])
      {| fixed_flag := fixed_flag (flags os); precision := precision (flags os);
         boolalpha_flag := true |}.
Proof.
  intros os. split.
  - eapply appends_eq; [apply floating_point_types_appends | | reflexivity].
    vm_compute. reflexivity.
  - unfold Lesson1.boolean_type.
    eapply appends_eq; [appends_solve | text_norm; reflexivity | reflexivity].
Qed.

(** ** Component A: the full name determines its parts *)

(** X12.  The space put between the two names separates them: two pairs of
    names whose first names hold no space never give the same full name.
    With a space in a first name they can: "Mary Ann" and "Lee" give the full
    name of "Mary" and "Ann Lee". *)
Theorem fullName_separates :
  (forall firstName lastName firstName' lastName' : string,
     no_space firstName = true ->
     no_space firstName' = true ->
     Lesson1.fullName firstName lastName = Lesson1.fullName firstName' lastName' ->
     firstName = firstName' /\ lastName = lastName') /\
  Lesson1.fullName "Mary Ann" "Lee" = Lesson1.fullName "Mary" "Ann Lee".
Proof.
  split; [|reflexivity].
  assert (E : forall f l, Lesson1.fullName f l = f ++ " " ++ l).
  { intros f l. unfold Lesson1.fullName, Str.plus. apply append_assoc. }
  intros f l f' l' Hf Hf'. rewrite !E. clear E.
  revert f' Hf'. induction f as [|c f IH]; intros f' Hf' H.
  - destruct f' as [|c' f'].
    + cbn in H. injection H as ->. split; reflexivity.
    + cbn in H. injection H as Hc _. subst c'.
      cbn in Hf'. discriminate Hf'.
  - cbn in Hf. apply andb_true_iff in Hf as [Hc Hf].
    destruct f' as [|c' f'].
    + cbn in H. injection H as Hc' _. subst c.
      cbn in Hc. discriminate Hc.
    + cbn in H. injection H as -> H.
      cbn in Hf'. apply andb_true_iff in Hf' as [_ Hf'].
      destruct (IH Hf f' Hf' H) as [-> ->]. split; reflexivity.
Qed.

Lemma fullName_separates_witness :
  Lesson1.fullName "John" "Doe" = Lesson1.fullName "John" "Doe" /\
  "John" = "John" /\ "Doe" = "Doe".
Proof.
  split; [reflexivity|].
  exact (proj1 fullName_separates "John" "Doe" "John" "Doe" eq_refl eq_refl eq_refl).
Defined.
